(** * terraform-provider-tinymon: reconciliation core

    A shallow embedding of [internal/provider/provider.go],
    [internal/provider/host_resource.go] and
    [internal/provider/check_resource.go], followed by the properties the
    specification states about them.

    Go strings are byte strings and are embedded as [string] (a list of
    8-bit [ascii]); Go's [int] and [int64] are embedded as [Z] (no arithmetic
    is performed on them, so no wrap-around arises).  The Terraform framework
    values [types.String], [types.Int64] and [types.Bool] keep their three
    states (null, unknown, known). *)

From Stdlib Require Import String Ascii List ZArith Lia Bool DecimalString.
Import ListNotations.

Set Implicit Arguments.

Open Scope string_scope.
Open Scope Z_scope.

(** ** Go's [strings] package, the two functions the provider calls *)

Module strings.

(** [strings.Contains(s, substr)] as a proposition. *)
Definition Contains (s substr : string) : Prop :=
  exists pre post, s = pre ++ substr ++ post.

(** Membership of a byte in an ASCII cutset. *)
Fixpoint inCutset (c : ascii) (cutset : string) : bool :=
  match cutset with
  | EmptyString => false
  | String d rest => Ascii.eqb c d || inCutset c rest
  end.

(** [strings.TrimRight(s, cutset)]: [s] without its trailing bytes that
    belong to [cutset] (for an ASCII cutset Go works byte by byte). *)
Fixpoint TrimRight (s cutset : string) : string :=
  match s with
  | EmptyString => EmptyString
  | String a rest =>
      match TrimRight rest cutset with
      | EmptyString => if inCutset a cutset then EmptyString
                       else String a EmptyString
      | t => String a t
      end
  end.

(** [strings.Cut(s, sep)] for a one-byte separator: the text before and
    after the first occurrence of [sep], or [None] when there is none
    (Go's [Index] returning -1). *)
Fixpoint Cut (s : string) (sep : ascii) : option (string * string) :=
  match s with
  | EmptyString => None
  | String a rest =>
      if Ascii.eqb a sep then Some (EmptyString, rest)
      else match Cut rest sep with
           | Some (before, after) => Some (String a before, after)
           | None => None
           end
  end.

(** The loop of [genSplit]: at most [k] cuts, then the rest unsplit. *)
Fixpoint splitLoop (k : nat) (s : string) (sep : ascii) : list string :=
  match k with
  | O => [s]
  | S k' =>
      match Cut s sep with
      | None => [s]
      | Some (before, after) => before :: splitLoop k' after sep
      end
  end.

(** [strings.SplitN(s, sep, n)] for a one-byte separator.
    [n = 0] gives nil, [n < 0] splits everywhere, and [n > 0] gives at
    most [n] pieces, the last one being the unsplit remainder. *)
Definition SplitN (s : string) (sep : ascii) (n : Z) : list string :=
  if n =? 0 then []
  else
    let len := Z.of_nat (String.length s) in
    let n := if n <? 0 then len + 1 else n in
    let n := if n >? len + 1 then len + 1 else n in
    splitLoop (Z.to_nat (n - 1)) s sep.

(** [strings.Join(parts, sep)]. *)
Fixpoint Join (parts : list string) (sep : string) : string :=
  match parts with
  | [] => EmptyString
  | [p] => p
  | p :: rest => p ++ sep ++ Join rest sep
  end.

(** [c] does not occur in [s]. *)
Fixpoint free_of (c : ascii) (s : string) : bool :=
  match s with
  | EmptyString => true
  | String a rest => negb (Ascii.eqb a c) && free_of c rest
  end.


End strings.

(** ** [fmt]: the [%d] verb *)

Module fmt.
(** [fmt.Sprintf("%d", n)]: decimal digits, with a leading minus sign for
    negative numbers. *)
Definition d (n : Z) : string := NilZero.string_of_int (Z.to_int n).
End fmt.

(** ** [net/url]: [QueryEscape] *)

Module url.

Definition isAlnum (c : ascii) : bool :=
  let n := nat_of_ascii c in
  ((48 <=? n) && (n <=? 57) || (65 <=? n) && (n <=? 90)
   || (97 <=? n) && (n <=? 122))%nat.

(** [shouldEscape(c, encodeQueryComponent)]: everything but the
    unreserved bytes is escaped. *)
Definition shouldEscape (c : ascii) : bool :=
  negb (isAlnum c || strings.inCutset c "-_.~").

Definition upperhex (n : nat) : ascii :=
  match String.get n "0123456789ABCDEF" with
  | Some c => c
  | None => "0"%char
  end.

Fixpoint QueryEscape (s : string) : string :=
  match s with
  | EmptyString => EmptyString
  | String c rest =>
      if Ascii.eqb c " " then String "+" (QueryEscape rest)
      else if shouldEscape c then
        let n := nat_of_ascii c in
        String "%" (String (upperhex (n / 16)%nat) (String (upperhex (n mod 16)%nat)
                   (QueryEscape rest)))
      else String c (QueryEscape rest)
  end.

End url.

(** ** Terraform framework values: [types.String], [types.Int64], [types.Bool] *)

Module types.

Inductive String := StringNull | StringUnknown | StringValue (s : string).
Inductive Int64 := Int64Null | Int64Unknown | Int64Value (n : Z).
Inductive Bool := BoolNull | BoolUnknown | BoolValue (b : bool).

End types.

(** The accessor methods of the framework values.  [ValueX] of a null or
    unknown value is the zero value of the Go type. *)

Definition String_IsNull (v : types.String) : bool :=
  match v with types.StringNull => true | _ => false end.

Definition String_IsUnknown (v : types.String) : bool :=
  match v with types.StringUnknown => true | _ => false end.

Definition ValueString (v : types.String) : string :=
  match v with types.StringValue s => s | _ => "" end.

Definition ValueInt64 (v : types.Int64) : Z :=
  match v with types.Int64Value n => n | _ => 0 end.

Definition Bool_IsNull (v : types.Bool) : bool :=
  match v with types.BoolNull => true | _ => false end.

Definition ValueBool (v : types.Bool) : bool :=
  match v with types.BoolValue b => b | _ => false end.

(** ** Diagnostics *)

Module diag.

Inductive Severity := SeverityError | SeverityWarning.

Record Diagnostic := {
  severity : Severity;
  summary : string;
  detail : string
}.

Definition Diagnostics := list Diagnostic.

Definition Severity_eqb (a b : Severity) : bool :=
  match a, b with
  | SeverityError, SeverityError | SeverityWarning, SeverityWarning => true
  | _, _ => false
  end.

Definition Diagnostic_eqb (a b : Diagnostic) : bool :=
  Severity_eqb (severity a) (severity b)
  && String.eqb (summary a) (summary b)
  && String.eqb (detail a) (detail b).

Definition isError (x : Diagnostic) : bool :=
  Severity_eqb (severity x) SeverityError.

Definition HasError (ds : Diagnostics) : bool := existsb isError ds.

Definition Contains (ds : Diagnostics) (x : Diagnostic) : bool :=
  existsb (Diagnostic_eqb x) ds.

(** [Diagnostics.Append]: duplicates of what is already there are skipped. *)
Fixpoint Append (ds : Diagnostics) (new : Diagnostics) : Diagnostics :=
  match new with
  | [] => ds
  | x :: rest => Append (if Contains ds x then ds else (ds ++ [x])%list) rest
  end.

Definition AddError (ds : Diagnostics) (sum det : string) : Diagnostics :=
  Append ds [{| severity := SeverityError; summary := sum; detail := det |}].

End diag.

(** ** Results of fallible library calls *)

(** A Go [error] is represented by its message ([err.Error()]). *)
Definition error := string.

Inductive result (A : Type) : Type :=
| Ok (a : A)
| Err (e : error).

Arguments Ok {A} a.
Arguments Err {A} e.

(** ** [net/http] as seen by the provider *)

Module http.

(** [http.Header] with [Set]: one value per key. *)
Definition Header := list (string * string).

Definition Header_Set (h : Header) (key value : string) : Header :=
  (filter (fun kv => negb (String.eqb (fst kv) key)) h ++ [(key, value)])%list.

Record Request := {
  Method : string;
  URL : string;
  Hdr : Header;
  Body : option string
}.

(** A response: its status code and what [io.ReadAll(resp.Body)] yields. *)
Record Response := {
  StatusCode : Z;
  ReadAll : result string
}.

(** The transport behind [http.Client.Do] and the validation done by
    [http.NewRequest] (method token and URL syntax) are collaborators
    outside the repository. *)
Class Transport := {
  RemoteState : Type;
  NewRequest_check : string -> string -> option error;
  RoundTrip : Request -> RemoteState -> result Response * RemoteState
}.

(** The world a call runs in: every exchange made so far, and the state
    of the remote service. *)
Record World `{Transport} := {
  exchanges : list (Request * result Response);
  remote : RemoteState
}.

(** [http.NewRequest(method, url, body)]. *)
Definition NewRequest `{Transport} (method url : string)
    (body : option string) : result Request :=
  match NewRequest_check method url with
  | Some e => Err e
  | None => Ok {| Method := method; URL := url; Hdr := []; Body := body |}
  end.

(** [client.Do(req)]: one round trip, recorded in the world. *)
Definition Do `{Transport} (req : Request) (w : World)
    : result Response * World :=
  let (r, rs) := RoundTrip req (remote w) in
  (r, {| exchanges := (exchanges w ++ [(req, r)])%list; remote := rs |}).

End http.

(** ** [encoding/json] *)

Module json.

(** [json.Marshal(v)] for a value of Go type [B]. *)
Class Marshaler (B : Type) := Marshal : B -> result string.

(** [json.Unmarshal(data, &v)]: the destination after decoding (fields
    absent from the document keep their value) and the error, if any. *)
Class Unmarshaler (R : Type) := Unmarshal : string -> R -> R * option error.

(** The type of an untyped [nil] passed as [interface{}]. *)
Definition untyped_nil := Empty_set.

#[global] Instance Marshaler_nil : Marshaler untyped_nil :=
  fun v => match v with end.

#[global] Instance Unmarshaler_nil : Unmarshaler untyped_nil :=
  fun _ v => match v with end.

End json.

(** ** provider.go *)

(** [TinyMonClient].  Its [HTTP] field always holds the default
    [&http.Client{}]; what that client does is the [http.Transport] the
    functions below are parameterised by. *)
Record TinyMonClient := {
  URL : string;
  APIKey : string
}.

(** The errors [DoJSON] builds with [fmt.Errorf]. *)
Inductive DoJSONError :=
| ErrMarshal (e : error)
| ErrCreateRequest (e : error)
| ErrExecute (method path : string) (e : error)
| ErrReadBody (e : error)
| ErrStatus (method path : string) (status : Z) (body : string)
| ErrUnmarshal (e : error).

(** [err.Error()] of those errors. *)
Definition Error (e : DoJSONError) : string :=
  match e with
  | ErrMarshal e => "marshalling request body: " ++ e
  | ErrCreateRequest e => "creating request: " ++ e
  | ErrExecute method path e =>
      "executing request " ++ method ++ " " ++ path ++ ": " ++ e
  | ErrReadBody e => "reading response body: " ++ e
  | ErrStatus method path status body =>
      "API " ++ method ++ " " ++ path ++ " returned status "
      ++ fmt.d status ++ ": " ++ body
  | ErrUnmarshal e => "unmarshalling response: " ++ e
  end.

Section DoJSON.

Context `{T : http.Transport}.
Context {B R : Type} `{MB : json.Marshaler B} `{UR : json.Unmarshaler R}.

(** [TinyMonClient.DoJSON].  [body] and [result] are [None] for Go's
    [nil]; [result] is the value behind the destination pointer, and the
    second component of the outcome is that value after the call. *)
Definition DoJSON (c : TinyMonClient) (method path : string)
    (body : option B) (result : option R) (w : http.World)
    : (option DoJSONError * option R) * http.World :=
  let url := strings.TrimRight (URL c) "/" ++ path in
  let marshalled :=
    match body with
    | Some b =>
        match json.Marshal b with
        | Err e => Err e
        | Ok data => Ok (Some data)
        end
    | None => Ok None
    end in
  match marshalled with
  | Err e => ((Some (ErrMarshal e), result), w)
  | Ok reqBody =>
      match http.NewRequest method url reqBody with
      | Err e => ((Some (ErrCreateRequest e), result), w)
      | Ok req =>
          let hdr := http.Header_Set (http.Hdr req) "Authorization"
                       ("Bearer " ++ APIKey c) in
          let hdr := match body with
                     | Some _ =>
                         http.Header_Set hdr "Content-Type" "application/json"
                     | None => hdr
                     end in
          let hdr := http.Header_Set hdr "Accept" "application/json" in
          let req := {| http.Method := http.Method req;
                        http.URL := http.URL req;
                        http.Hdr := hdr;
                        http.Body := http.Body req |} in
          let (r, w') := http.Do req w in
          match r with
          | Err e => ((Some (ErrExecute method path e), result), w')
          | Ok resp =>
              match http.ReadAll resp with
              | Err e => ((Some (ErrReadBody e), result), w')
              | Ok respBody =>
                  if (http.StatusCode resp <? 200)
                     || (http.StatusCode resp >=? 300)
                  then ((Some (ErrStatus method path (http.StatusCode resp)
                                 respBody), result), w')
                  else
                    match result with
                    | Some dst =>
                        if (0 <? String.length respBody)%nat then
                          let (dst', err) := json.Unmarshal respBody dst in
                          match err with
                          | Some e => ((Some (ErrUnmarshal e), Some dst'), w')
                          | None => ((None, Some dst'), w')
                          end
                        else ((None, result), w')
                    | None => ((None, result), w')
                    end
              end
          end
      end
  end.

End DoJSON.

(** *** Provider configuration *)

Module tinymonProviderModel.
Record t := {
  URL : types.String;
  APIKey : types.String
}.
End tinymonProviderModel.

Module provider.
Record ConfigureResponse := {
  Diagnostics : diag.Diagnostics;
  DataSourceData : option TinyMonClient;
  ResourceData : option TinyMonClient
}.
End provider.

(** [os.Getenv] over an explicit environment: the value of the variable,
    or the empty string when it is not set. *)
Definition Getenv (env : string -> option string) (key : string) : string :=
  match env key with
  | Some v => v
  | None => ""
  end.

(** [tinymonProvider.Configure].  [config] is the decoded provider block
    (decoding a well-typed block adds no diagnostics); [resp] is the response
    the framework hands in. *)
Definition Configure (env : string -> option string)
    (config : tinymonProviderModel.t) (resp : provider.ConfigureResponse)
    : provider.ConfigureResponse :=
  if diag.HasError (provider.Diagnostics resp) then resp
  else
    let url := Getenv env "TINYMON_URL" in
    let url :=
      if negb (String_IsNull (tinymonProviderModel.URL config))
         && negb (String_IsUnknown (tinymonProviderModel.URL config))
      then ValueString (tinymonProviderModel.URL config) else url in
    let diags := provider.Diagnostics resp in
    let diags :=
      if String.eqb url ""
      then diag.AddError diags "Missing TinyMon URL"
             "Set url in the provider configuration or via the TINYMON_URL environment variable."
      else diags in
    let apiKey := Getenv env "TINYMON_API_KEY" in
    let apiKey :=
      if negb (String_IsNull (tinymonProviderModel.APIKey config))
         && negb (String_IsUnknown (tinymonProviderModel.APIKey config))
      then ValueString (tinymonProviderModel.APIKey config) else apiKey in
    let diags :=
      if String.eqb apiKey ""
      then diag.AddError diags "Missing TinyMon API Key"
             "Set api_key in the provider configuration or via the TINYMON_API_KEY environment variable."
      else diags in
    if diag.HasError diags
    then {| provider.Diagnostics := diags;
            provider.DataSourceData := provider.DataSourceData resp;
            provider.ResourceData := provider.ResourceData resp |}
    else
      let client := {| URL := url; APIKey := apiKey |} in
      {| provider.Diagnostics := diags;
         provider.DataSourceData := Some client;
         provider.ResourceData := Some client |}.

(** ** The framework's resource responses and schemas *)

Module resource.

(** What the lifecycle callbacks write to: the diagnostics and the state
    of the resource, of model type [M].  (Create, Read, Update, Delete and
    ImportState responses all carry these two fields.) *)
Record Response (M : Type) := {
  Diagnostics : diag.Diagnostics;
  State : M
}.

End resource.

Module schema.

Inductive PlanModifier := UseStateForUnknown | RequiresReplace.

Inductive DefaultValue :=
| StaticString (s : string)
| StaticInt64 (n : Z)
| StaticBool (b : bool).

Inductive AttributeKind := StringAttribute | Int64Attribute | BoolAttribute.

Record Attribute := {
  Kind : AttributeKind;
  Description : string;
  Required : bool;
  Optional : bool;
  Computed : bool;
  Default : option DefaultValue;
  PlanModifiers : list PlanModifier
}.

(** [map[string]schema.Attribute], as the list of its bindings. *)
Record Schema := {
  SchemaDescription : string;
  Attributes : list (string * Attribute)
}.

Fixpoint lookup (name : string) (attrs : list (string * Attribute))
    : option Attribute :=
  match attrs with
  | [] => None
  | (k, a) :: rest => if String.eqb k name then Some a else lookup name rest
  end.

Definition PlanModifier_eqb (a b : PlanModifier) : bool :=
  match a, b with
  | UseStateForUnknown, UseStateForUnknown
  | RequiresReplace, RequiresReplace => true
  | _, _ => false
  end.

(** The attribute carries the [RequiresReplace] plan modifier: a change
    of its value is planned as destroy-then-create. *)
Definition forcesReplacement (a : Attribute) : bool :=
  existsb (PlanModifier_eqb RequiresReplace) (PlanModifiers a).

Definition names (s : Schema) : list string := map fst (Attributes s).

End schema.

(** ** host_resource.go *)

Module hostResourceModel.
Record t := {
  ID : types.Int64;
  Address : types.String;
  Name : types.String;
  Description : types.String;
  Topic : types.String;
  Enabled : types.Bool
}.

(** The state of a resource nothing has been written to yet. *)
Definition null : t :=
  {| ID := types.Int64Null; Address := types.StringNull;
     Name := types.StringNull; Description := types.StringNull;
     Topic := types.StringNull; Enabled := types.BoolNull |}.
End hostResourceModel.

Module hostAPIRequest.
Record t := {
  Address : string;
  Name : string;
  Description : string;
  Topic : string;
  Enabled : Z
}.
End hostAPIRequest.

Module hostAPIResponse.
Record t := {
  ID : Z;
  Name : string;
  Address : string;
  Description : string;
  Topic : string;
  Enabled : Z
}.

(** [var result hostAPIResponse]: the zero value. *)
Definition zero : t :=
  {| ID := 0; Name := ""; Address := ""; Description := ""; Topic := "";
     Enabled := 0 |}.
End hostAPIResponse.

Module hostDeleteRequest.
Record t := { Address : string }.
End hostDeleteRequest.

(** [hostResource.Schema]. *)
Definition hostResource_Schema : schema.Schema :=
  {| schema.SchemaDescription := "Manages a host in TinyMon.";
     schema.Attributes :=
       [ ("id",
          {| schema.Kind := schema.Int64Attribute;
             schema.Description := "";
             schema.Required := false; schema.Optional := false;
             schema.Computed := true;
             schema.Default := None;
             schema.PlanModifiers := [schema.UseStateForUnknown] |});
         ("address",
          {| schema.Kind := schema.StringAttribute;
             schema.Description :=
               "IP address or hostname. Changing this forces a new resource.";
             schema.Required := true; schema.Optional := false;
             schema.Computed := false;
             schema.Default := None;
             schema.PlanModifiers := [schema.RequiresReplace] |});
         ("name",
          {| schema.Kind := schema.StringAttribute;
             schema.Description := "Display name. Defaults to the address.";
             schema.Required := false; schema.Optional := true;
             schema.Computed := true;
             schema.Default := None;
             schema.PlanModifiers := [] |});
         ("description",
          {| schema.Kind := schema.StringAttribute;
             schema.Description := "";
             schema.Required := false; schema.Optional := true;
             schema.Computed := true;
             schema.Default := Some (schema.StaticString "");
             schema.PlanModifiers := [] |});
         ("topic",
          {| schema.Kind := schema.StringAttribute;
             schema.Description := "Topic path for grouping.";
             schema.Required := false; schema.Optional := true;
             schema.Computed := true;
             schema.Default := Some (schema.StaticString "");
             schema.PlanModifiers := [] |});
         ("enabled",
          {| schema.Kind := schema.BoolAttribute;
             schema.Description := "";
             schema.Required := false; schema.Optional := true;
             schema.Computed := true;
             schema.Default := Some (schema.StaticBool true);
             schema.PlanModifiers := [] |}) ] |}.

(** [resp.State.SetAttribute(ctx, path.Root(name), val)] for a Go string
    [val] on a host state: the attribute is written when [name] is a string
    attribute of the schema; otherwise the state is left as it is and an
    error is reported. *)
Definition hostState_SetAttribute (name val : string) (st : hostResourceModel.t)
    : diag.Diagnostics * hostResourceModel.t :=
  let v := types.StringValue val in
  if String.eqb name "address" then
    ([], {| hostResourceModel.ID := hostResourceModel.ID st;
            hostResourceModel.Address := v;
            hostResourceModel.Name := hostResourceModel.Name st;
            hostResourceModel.Description := hostResourceModel.Description st;
            hostResourceModel.Topic := hostResourceModel.Topic st;
            hostResourceModel.Enabled := hostResourceModel.Enabled st |})
  else if String.eqb name "name" then
    ([], {| hostResourceModel.ID := hostResourceModel.ID st;
            hostResourceModel.Address := hostResourceModel.Address st;
            hostResourceModel.Name := v;
            hostResourceModel.Description := hostResourceModel.Description st;
            hostResourceModel.Topic := hostResourceModel.Topic st;
            hostResourceModel.Enabled := hostResourceModel.Enabled st |})
  else if String.eqb name "description" then
    ([], {| hostResourceModel.ID := hostResourceModel.ID st;
            hostResourceModel.Address := hostResourceModel.Address st;
            hostResourceModel.Name := hostResourceModel.Name st;
            hostResourceModel.Description := v;
            hostResourceModel.Topic := hostResourceModel.Topic st;
            hostResourceModel.Enabled := hostResourceModel.Enabled st |})
  else if String.eqb name "topic" then
    ([], {| hostResourceModel.ID := hostResourceModel.ID st;
            hostResourceModel.Address := hostResourceModel.Address st;
            hostResourceModel.Name := hostResourceModel.Name st;
            hostResourceModel.Description := hostResourceModel.Description st;
            hostResourceModel.Topic := v;
            hostResourceModel.Enabled := hostResourceModel.Enabled st |})
  else
    ([{| diag.severity := diag.SeverityError;
         diag.summary := "Value Conversion Error";
         diag.detail := name |}], st).

(** [mapHostResponseToState]: the new value of [*state]. *)
Definition mapHostResponseToState (apiResp : hostAPIResponse.t)
    (state : hostResourceModel.t) : hostResourceModel.t :=
  {| hostResourceModel.ID := types.Int64Value (hostAPIResponse.ID apiResp);
     hostResourceModel.Address :=
       types.StringValue (hostAPIResponse.Address apiResp);
     hostResourceModel.Name := types.StringValue (hostAPIResponse.Name apiResp);
     hostResourceModel.Description :=
       types.StringValue (hostAPIResponse.Description apiResp);
     hostResourceModel.Topic :=
       types.StringValue (hostAPIResponse.Topic apiResp);
     hostResourceModel.Enabled :=
       types.BoolValue (negb (hostAPIResponse.Enabled apiResp =? 0)) |}.

(** The request body [hostResource.Create] builds from the plan
    (host_resource.go, lines 129-140). *)
Definition hostResource_Create_body (plan : hostResourceModel.t)
    : hostAPIRequest.t :=
  let enabled := 1 in
  let enabled :=
    if negb (Bool_IsNull (hostResourceModel.Enabled plan))
       && negb (ValueBool (hostResourceModel.Enabled plan))
    then 0 else enabled in
  {| hostAPIRequest.Address := ValueString (hostResourceModel.Address plan);
     hostAPIRequest.Name := ValueString (hostResourceModel.Name plan);
     hostAPIRequest.Description :=
       ValueString (hostResourceModel.Description plan);
     hostAPIRequest.Topic := ValueString (hostResourceModel.Topic plan);
     hostAPIRequest.Enabled := enabled |}.

(** The request body [hostResource.Update] builds from the plan
    (host_resource.go, lines 180-191). *)
Definition hostResource_Update_body (plan : hostResourceModel.t)
    : hostAPIRequest.t :=
  let enabled := 1 in
  let enabled :=
    if negb (Bool_IsNull (hostResourceModel.Enabled plan))
       && negb (ValueBool (hostResourceModel.Enabled plan))
    then 0 else enabled in
  {| hostAPIRequest.Address := ValueString (hostResourceModel.Address plan);
     hostAPIRequest.Name := ValueString (hostResourceModel.Name plan);
     hostAPIRequest.Description :=
       ValueString (hostResourceModel.Description plan);
     hostAPIRequest.Topic := ValueString (hostResourceModel.Topic plan);
     hostAPIRequest.Enabled := enabled |}.

(** [hostResource.ImportState]. *)
Definition hostResource_ImportState (ID : string)
    (resp : resource.Response hostResourceModel.t)
    : resource.Response hostResourceModel.t :=
  let (ds, st) := hostState_SetAttribute "address" ID (resource.State resp) in
  {| resource.Diagnostics := diag.Append (resource.Diagnostics resp) ds;
     resource.State := st |}.

(** ** check_resource.go *)

Module checkResourceModel.
Record t := {
  ID : types.Int64;
  HostAddress : types.String;
  Type_ : types.String;
  Config : types.String;
  IntervalSeconds : types.Int64;
  Enabled : types.Bool
}.

Definition null : t :=
  {| ID := types.Int64Null; HostAddress := types.StringNull;
     Type_ := types.StringNull; Config := types.StringNull;
     IntervalSeconds := types.Int64Null; Enabled := types.BoolNull |}.
End checkResourceModel.

Module checkAPIRequest.
Record t := {
  HostAddress : string;
  Type_ : string;
  Config : string;
  IntervalSeconds : Z;
  Enabled : Z
}.
End checkAPIRequest.

Module checkAPIResponse.
Record t := {
  ID : Z;
  HostID : Z;
  Type_ : string;
  Config : string;
  IntervalSeconds : Z;
  Enabled : Z
}.

Definition zero : t :=
  {| ID := 0; HostID := 0; Type_ := ""; Config := ""; IntervalSeconds := 0;
     Enabled := 0 |}.
End checkAPIResponse.

Module checkDeleteRequest.
Record t := {
  HostAddress : string;
  Type_ : string;
  Config : string
}.
End checkDeleteRequest.

(** [checkResource.Schema]. *)
Definition checkResource_Schema : schema.Schema :=
  {| schema.SchemaDescription := "Manages a check in TinyMon.";
     schema.Attributes :=
       [ ("id",
          {| schema.Kind := schema.Int64Attribute;
             schema.Description := "";
             schema.Required := false; schema.Optional := false;
             schema.Computed := true;
             schema.Default := None;
             schema.PlanModifiers := [schema.UseStateForUnknown] |});
         ("host_address",
          {| schema.Kind := schema.StringAttribute;
             schema.Description :=
               "Address of the host. Changing this forces a new resource.";
             schema.Required := true; schema.Optional := false;
             schema.Computed := false;
             schema.Default := None;
             schema.PlanModifiers := [schema.RequiresReplace] |});
         ("type",
          {| schema.Kind := schema.StringAttribute;
             schema.Description :=
               "Check type (ping, http, port, certificate, etc.).";
             schema.Required := true; schema.Optional := false;
             schema.Computed := false;
             schema.Default := None;
             schema.PlanModifiers := [schema.RequiresReplace] |});
         ("config",
          {| schema.Kind := schema.StringAttribute;
             schema.Description := "JSON config string.";
             schema.Required := false; schema.Optional := true;
             schema.Computed := true;
             schema.Default := Some (schema.StaticString "{}");
             schema.PlanModifiers := [schema.RequiresReplace] |});
         ("interval_seconds",
          {| schema.Kind := schema.Int64Attribute;
             schema.Description := "Check interval in seconds.";
             schema.Required := false; schema.Optional := true;
             schema.Computed := true;
             schema.Default := Some (schema.StaticInt64 300);
             schema.PlanModifiers := [] |});
         ("enabled",
          {| schema.Kind := schema.BoolAttribute;
             schema.Description := "";
             schema.Required := false; schema.Optional := true;
             schema.Computed := true;
             schema.Default := Some (schema.StaticBool true);
             schema.PlanModifiers := [] |}) ] |}.

(** [resp.State.SetAttribute(ctx, path.Root(name), val)] for a Go string
    [val] on a check state. *)
Definition checkState_SetAttribute (name val : string)
    (st : checkResourceModel.t) : diag.Diagnostics * checkResourceModel.t :=
  let v := types.StringValue val in
  if String.eqb name "host_address" then
    ([], {| checkResourceModel.ID := checkResourceModel.ID st;
            checkResourceModel.HostAddress := v;
            checkResourceModel.Type_ := checkResourceModel.Type_ st;
            checkResourceModel.Config := checkResourceModel.Config st;
            checkResourceModel.IntervalSeconds :=
              checkResourceModel.IntervalSeconds st;
            checkResourceModel.Enabled := checkResourceModel.Enabled st |})
  else if String.eqb name "type" then
    ([], {| checkResourceModel.ID := checkResourceModel.ID st;
            checkResourceModel.HostAddress := checkResourceModel.HostAddress st;
            checkResourceModel.Type_ := v;
            checkResourceModel.Config := checkResourceModel.Config st;
            checkResourceModel.IntervalSeconds :=
              checkResourceModel.IntervalSeconds st;
            checkResourceModel.Enabled := checkResourceModel.Enabled st |})
  else if String.eqb name "config" then
    ([], {| checkResourceModel.ID := checkResourceModel.ID st;
            checkResourceModel.HostAddress := checkResourceModel.HostAddress st;
            checkResourceModel.Type_ := checkResourceModel.Type_ st;
            checkResourceModel.Config := v;
            checkResourceModel.IntervalSeconds :=
              checkResourceModel.IntervalSeconds st;
            checkResourceModel.Enabled := checkResourceModel.Enabled st |})
  else
    ([{| diag.severity := diag.SeverityError;
         diag.summary := "Value Conversion Error";
         diag.detail := name |}], st).

(** [mapCheckResponseToState]: the new value of [*state].  The response
    type has no host address, and [state.HostAddress] is not assigned. *)
Definition mapCheckResponseToState (apiResp : checkAPIResponse.t)
    (state : checkResourceModel.t) : checkResourceModel.t :=
  {| checkResourceModel.ID := types.Int64Value (checkAPIResponse.ID apiResp);
     checkResourceModel.HostAddress := checkResourceModel.HostAddress state;
     checkResourceModel.Type_ :=
       types.StringValue (checkAPIResponse.Type_ apiResp);
     checkResourceModel.Config :=
       types.StringValue (checkAPIResponse.Config apiResp);
     checkResourceModel.IntervalSeconds :=
       types.Int64Value (checkAPIResponse.IntervalSeconds apiResp);
     checkResourceModel.Enabled :=
       types.BoolValue (negb (checkAPIResponse.Enabled apiResp =? 0)) |}.

(** The request body [checkResource.Create] builds from the plan
    (check_resource.go, lines 139-150). *)
Definition checkResource_Create_body (plan : checkResourceModel.t)
    : checkAPIRequest.t :=
  let enabled := 1 in
  let enabled :=
    if negb (Bool_IsNull (checkResourceModel.Enabled plan))
       && negb (ValueBool (checkResourceModel.Enabled plan))
    then 0 else enabled in
  {| checkAPIRequest.HostAddress :=
       ValueString (checkResourceModel.HostAddress plan);
     checkAPIRequest.Type_ := ValueString (checkResourceModel.Type_ plan);
     checkAPIRequest.Config := ValueString (checkResourceModel.Config plan);
     checkAPIRequest.IntervalSeconds :=
       ValueInt64 (checkResourceModel.IntervalSeconds plan);
     checkAPIRequest.Enabled := enabled |}.

(** The request body [checkResource.Update] builds from the plan
    (check_resource.go, lines 194-205). *)
Definition checkResource_Update_body (plan : checkResourceModel.t)
    : checkAPIRequest.t :=
  let enabled := 1 in
  let enabled :=
    if negb (Bool_IsNull (checkResourceModel.Enabled plan))
       && negb (ValueBool (checkResourceModel.Enabled plan))
    then 0 else enabled in
  {| checkAPIRequest.HostAddress :=
       ValueString (checkResourceModel.HostAddress plan);
     checkAPIRequest.Type_ := ValueString (checkResourceModel.Type_ plan);
     checkAPIRequest.Config := ValueString (checkResourceModel.Config plan);
     checkAPIRequest.IntervalSeconds :=
       ValueInt64 (checkResourceModel.IntervalSeconds plan);
     checkAPIRequest.Enabled := enabled |}.

(** Writing one attribute and collecting its diagnostics, as
    [resp.Diagnostics.Append(resp.State.SetAttribute(...)...)] does. *)
Definition checkResponse_SetAttribute (name val : string)
    (resp : resource.Response checkResourceModel.t)
    : resource.Response checkResourceModel.t :=
  let (ds, st) := checkState_SetAttribute name val (resource.State resp) in
  {| resource.Diagnostics := diag.Append (resource.Diagnostics resp) ds;
     resource.State := st |}.

(** [checkResource.ImportState].  [parts[i]] is only read below the length
    that was checked, so the default of [nth] is never returned. *)
Definition checkResource_ImportState (ID : string)
    (resp : resource.Response checkResourceModel.t)
    : resource.Response checkResourceModel.t :=
  let parts := strings.SplitN ID "/" 3 in
  if (List.length parts <? 2)%nat then
    {| resource.Diagnostics :=
         diag.AddError (resource.Diagnostics resp) "Invalid import ID"
           "Import ID must be: host_address/type or host_address/type/config";
       resource.State := resource.State resp |}
  else
    let resp := checkResponse_SetAttribute "host_address" (nth 0 parts "") resp in
    let resp := checkResponse_SetAttribute "type" (nth 1 parts "") resp in
    let config := "{}" in
    let config :=
      if (List.length parts =? 3)%nat then nth 2 parts "" else config in
    checkResponse_SetAttribute "config" config resp.

(** ** The lifecycle callbacks *)

(** The value behind the destination pointer after [DoJSON]; [DoJSON]
    never turns a supplied destination into [nil]. *)
Definition deref {R : Type} (after : option R) (before : R) : R :=
  match after with
  | Some r => r
  | None => before
  end.

Section Callbacks.

Context `{T : http.Transport}.
Context {MHR : json.Marshaler hostAPIRequest.t}
        {MHD : json.Marshaler hostDeleteRequest.t}
        {MCR : json.Marshaler checkAPIRequest.t}
        {MCD : json.Marshaler checkDeleteRequest.t}
        {UH : json.Unmarshaler hostAPIResponse.t}
        {UC : json.Unmarshaler checkAPIResponse.t}.

(** Each callback receives the client of the configured resource, the
    decoded plan or state (decoding adds no diagnostics), the response
    object and the world, and returns the response object and the world
    after the call. *)

Definition hostResource_Create (c : TinyMonClient)
    (plan : hostResourceModel.t)
    (resp : resource.Response hostResourceModel.t) (w : http.World)
    : resource.Response hostResourceModel.t * http.World :=
  if diag.HasError (resource.Diagnostics resp) then (resp, w)
  else
    let body := hostResource_Create_body plan in
    let result := hostAPIResponse.zero in
    match DoJSON c "POST" "/api/push/hosts" (Some body) (Some result) w with
    | ((Some err, _), w') =>
        ({| resource.Diagnostics :=
              diag.AddError (resource.Diagnostics resp)
                "Error creating host" (Error err);
            resource.State := resource.State resp |}, w')
    | ((None, after), w') =>
        let plan := mapHostResponseToState (deref after result) plan in
        ({| resource.Diagnostics := resource.Diagnostics resp;
            resource.State := plan |}, w')
    end.

Definition hostResource_Read (c : TinyMonClient)
    (state : hostResourceModel.t)
    (resp : resource.Response hostResourceModel.t) (w : http.World)
    : resource.Response hostResourceModel.t * http.World :=
  if diag.HasError (resource.Diagnostics resp) then (resp, w)
  else
    let apiPath :=
      "/api/push/hosts?address="
      ++ url.QueryEscape (ValueString (hostResourceModel.Address state)) in
    let result := hostAPIResponse.zero in
    match DoJSON (B := json.untyped_nil) c "GET" apiPath None
            (Some result) w with
    | ((Some err, _), w') =>
        ({| resource.Diagnostics :=
              diag.AddError (resource.Diagnostics resp)
                "Error reading host" (Error err);
            resource.State := resource.State resp |}, w')
    | ((None, after), w') =>
        let state := mapHostResponseToState (deref after result) state in
        ({| resource.Diagnostics := resource.Diagnostics resp;
            resource.State := state |}, w')
    end.

Definition hostResource_Update (c : TinyMonClient)
    (plan : hostResourceModel.t)
    (resp : resource.Response hostResourceModel.t) (w : http.World)
    : resource.Response hostResourceModel.t * http.World :=
  if diag.HasError (resource.Diagnostics resp) then (resp, w)
  else
    let body := hostResource_Update_body plan in
    let result := hostAPIResponse.zero in
    match DoJSON c "POST" "/api/push/hosts" (Some body) (Some result) w with
    | ((Some err, _), w') =>
        ({| resource.Diagnostics :=
              diag.AddError (resource.Diagnostics resp)
                "Error updating host" (Error err);
            resource.State := resource.State resp |}, w')
    | ((None, after), w') =>
        let plan := mapHostResponseToState (deref after result) plan in
        ({| resource.Diagnostics := resource.Diagnostics resp;
            resource.State := plan |}, w')
    end.

Definition hostResource_Delete (c : TinyMonClient)
    (state : hostResourceModel.t)
    (resp : resource.Response hostResourceModel.t) (w : http.World)
    : resource.Response hostResourceModel.t * http.World :=
  if diag.HasError (resource.Diagnostics resp) then (resp, w)
  else
    let body :=
      {| hostDeleteRequest.Address :=
           ValueString (hostResourceModel.Address state) |} in
    match DoJSON (R := json.untyped_nil) c "DELETE" "/api/push/hosts"
            (Some body) None w with
    | ((Some err, _), w') =>
        ({| resource.Diagnostics :=
              diag.AddError (resource.Diagnostics resp)
                "Error deleting host" (Error err);
            resource.State := resource.State resp |}, w')
    | ((None, _), w') => (resp, w')
    end.

Definition checkResource_Create (c : TinyMonClient)
    (plan : checkResourceModel.t)
    (resp : resource.Response checkResourceModel.t) (w : http.World)
    : resource.Response checkResourceModel.t * http.World :=
  if diag.HasError (resource.Diagnostics resp) then (resp, w)
  else
    let body := checkResource_Create_body plan in
    let result := checkAPIResponse.zero in
    match DoJSON c "POST" "/api/push/checks" (Some body) (Some result) w with
    | ((Some err, _), w') =>
        ({| resource.Diagnostics :=
              diag.AddError (resource.Diagnostics resp)
                "Error creating check" (Error err);
            resource.State := resource.State resp |}, w')
    | ((None, after), w') =>
        let plan := mapCheckResponseToState (deref after result) plan in
        ({| resource.Diagnostics := resource.Diagnostics resp;
            resource.State := plan |}, w')
    end.

Definition checkResource_Read (c : TinyMonClient)
    (state : checkResourceModel.t)
    (resp : resource.Response checkResourceModel.t) (w : http.World)
    : resource.Response checkResourceModel.t * http.World :=
  if diag.HasError (resource.Diagnostics resp) then (resp, w)
  else
    let queryPath :=
      "/api/push/checks?host_address="
      ++ url.QueryEscape (ValueString (checkResourceModel.HostAddress state))
      ++ "&type="
      ++ url.QueryEscape (ValueString (checkResourceModel.Type_ state))
      ++ "&config="
      ++ url.QueryEscape (ValueString (checkResourceModel.Config state)) in
    let result := checkAPIResponse.zero in
    match DoJSON (B := json.untyped_nil) c "GET" queryPath None
            (Some result) w with
    | ((Some err, _), w') =>
        ({| resource.Diagnostics :=
              diag.AddError (resource.Diagnostics resp)
                "Error reading check" (Error err);
            resource.State := resource.State resp |}, w')
    | ((None, after), w') =>
        let state := mapCheckResponseToState (deref after result) state in
        ({| resource.Diagnostics := resource.Diagnostics resp;
            resource.State := state |}, w')
    end.

Definition checkResource_Update (c : TinyMonClient)
    (plan : checkResourceModel.t)
    (resp : resource.Response checkResourceModel.t) (w : http.World)
    : resource.Response checkResourceModel.t * http.World :=
  if diag.HasError (resource.Diagnostics resp) then (resp, w)
  else
    let body := checkResource_Update_body plan in
    let result := checkAPIResponse.zero in
    match DoJSON c "POST" "/api/push/checks" (Some body) (Some result) w with
    | ((Some err, _), w') =>
        ({| resource.Diagnostics :=
              diag.AddError (resource.Diagnostics resp)
                "Error updating check" (Error err);
            resource.State := resource.State resp |}, w')
    | ((None, after), w') =>
        let plan := mapCheckResponseToState (deref after result) plan in
        ({| resource.Diagnostics := resource.Diagnostics resp;
            resource.State := plan |}, w')
    end.

Definition checkResource_Delete (c : TinyMonClient)
    (state : checkResourceModel.t)
    (resp : resource.Response checkResourceModel.t) (w : http.World)
    : resource.Response checkResourceModel.t * http.World :=
  if diag.HasError (resource.Diagnostics resp) then (resp, w)
  else
    let body :=
      {| checkDeleteRequest.HostAddress :=
           ValueString (checkResourceModel.HostAddress state);
         checkDeleteRequest.Type_ :=
           ValueString (checkResourceModel.Type_ state);
         checkDeleteRequest.Config :=
           ValueString (checkResourceModel.Config state) |} in
    match DoJSON (R := json.untyped_nil) c "DELETE" "/api/push/checks"
            (Some body) None w with
    | ((Some err, _), w') =>
        ({| resource.Diagnostics :=
              diag.AddError (resource.Diagnostics resp)
                "Error deleting check" (Error err);
            resource.State := resource.State resp |}, w')
    | ((None, _), w') => (resp, w')
    end.

End Callbacks.

(** ** Resource configuration *)

(** [req.ProviderData], a Go [any]: [nil], a [*TinyMonClient], or a value
    of some other type, of which only the name printed by [%T] matters. *)
Inductive ProviderData :=
| ProviderData_nil
| ProviderData_client (c : TinyMonClient)
| ProviderData_other (typeName : string).

(** The framework hands the provider's [resp.ResourceData] to every
    resource as [req.ProviderData]. *)
Definition ProviderData_of (data : option TinyMonClient) : ProviderData :=
  match data with
  | Some c => ProviderData_client c
  | None => ProviderData_nil
  end.

(** [hostResource] and [checkResource]: the [client] pointer, [None] for
    [nil]. *)
Record hostResource := { hostResource_client : option TinyMonClient }.
Record checkResource := { checkResource_client : option TinyMonClient }.

(** [hostResource.Configure]: the resource and the diagnostics after the
    call. *)
Definition hostResource_Configure (r : hostResource) (pd : ProviderData)
    (diags : diag.Diagnostics) : hostResource * diag.Diagnostics :=
  match pd with
  | ProviderData_nil => (r, diags)
  | ProviderData_other typeName =>
      (r, diag.AddError diags "Unexpected Resource Configure Type"
            ("Expected *TinyMonClient, got " ++ typeName ++ "."))
  | ProviderData_client client =>
      ({| hostResource_client := Some client |}, diags)
  end.

(** [checkResource.Configure]. *)
Definition checkResource_Configure (r : checkResource) (pd : ProviderData)
    (diags : diag.Diagnostics) : checkResource * diag.Diagnostics :=
  match pd with
  | ProviderData_nil => (r, diags)
  | ProviderData_other typeName =>
      (r, diag.AddError diags "Unexpected Resource Configure Type"
            ("Expected *TinyMonClient, got " ++ typeName ++ "."))
  | ProviderData_client client =>
      ({| checkResource_client := Some client |}, diags)
  end.

(** ** Vocabulary of the properties *)

(** Between the worlds [w] and [w'] exactly one exchange took place, and
    the service answered it with [resp]. *)
Definition answered `{T : http.Transport} (w w' : http.World)
    (req : http.Request) (resp : http.Response) : Prop :=
  http.exchanges w' = (http.exchanges w ++ [(req, Ok resp)])%list.

(** The status code is a success code for [DoJSON]. *)
Definition is2xx (status : Z) : Prop := 200 <= status < 300.

(** A check state with its three key attributes written and everything
    else as in [st]. *)
Definition imported (st : checkResourceModel.t) (host type config : string)
    : checkResourceModel.t :=
  {| checkResourceModel.ID := checkResourceModel.ID st;
     checkResourceModel.HostAddress := types.StringValue host;
     checkResourceModel.Type_ := types.StringValue type;
     checkResourceModel.Config := types.StringValue config;
     checkResourceModel.IntervalSeconds := checkResourceModel.IntervalSeconds st;
     checkResourceModel.Enabled := checkResourceModel.Enabled st |}.

(** The configuration value the specification describes: the explicit one
    when it is set, the environment's otherwise. *)
Definition resolve (explicit : types.String) (env : string -> option string)
    (key : string) : string :=
  match explicit with
  | types.StringValue s => s
  | types.StringNull | types.StringUnknown => Getenv env key
  end.

(** What [DoJSON] does up to and including [c.HTTP.Do]: the error it
    gives up with before anything is sent, or the transport's answer and
    the world after the exchange. *)
Definition send `{T : http.Transport} {B : Type} {MB : json.Marshaler B}
    (c : TinyMonClient) (method path : string) (body : option B)
    (w : http.World) : DoJSONError + (result http.Response * http.World) :=
  let url := strings.TrimRight (URL c) "/" ++ path in
  let marshalled :=
    match body with
    | Some b =>
        match json.Marshal b with
        | Err e => Err e
        | Ok data => Ok (Some data)
        end
    | None => Ok None
    end in
  match marshalled with
  | Err e => inl (ErrMarshal e)
  | Ok reqBody =>
      match http.NewRequest method url reqBody with
      | Err e => inl (ErrCreateRequest e)
      | Ok req =>
          let hdr := http.Header_Set (http.Hdr req) "Authorization"
                       ("Bearer " ++ APIKey c) in
          let hdr := match body with
                     | Some _ =>
                         http.Header_Set hdr "Content-Type" "application/json"
                     | None => hdr
                     end in
          let hdr := http.Header_Set hdr "Accept" "application/json" in
          inr (http.Do {| http.Method := http.Method req;
                          http.URL := http.URL req;
                          http.Hdr := hdr;
                          http.Body := http.Body req |} w)
      end
  end.

(** What [DoJSON] returns once the transport has produced [r]: the part
    of the function after [c.HTTP.Do]. *)
Definition outcome {R : Type} {UR : json.Unmarshaler R} (method path : string)
    (dest : option R) (r : result http.Response)
    : option DoJSONError * option R :=
  match r with
  | Err e => (Some (ErrExecute method path e), dest)
  | Ok resp =>
      match http.ReadAll resp with
      | Err e => (Some (ErrReadBody e), dest)
      | Ok respBody =>
          if (http.StatusCode resp <? 200) || (http.StatusCode resp >=? 300)
          then (Some (ErrStatus method path (http.StatusCode resp) respBody),
                dest)
          else
            match dest with
            | Some dst =>
                if (0 <? String.length respBody)%nat then
                  let (dst', err) := json.Unmarshal respBody dst in
                  match err with
                  | Some e => (Some (ErrUnmarshal e), Some dst')
                  | None => (None, Some dst')
                  end
                else (None, dest)
            | None => (None, dest)
            end
      end
  end.

(** The callback failed with [e]: the state is the one it was handed, and
    the error is reported under [summary]. *)
Definition fails_with {M : Type} (resp resp' : resource.Response M)
    (summary : string) (e : DoJSONError) : Prop :=
  resource.State resp' = resource.State resp
  /\ resource.Diagnostics resp' =
     diag.AddError (resource.Diagnostics resp) summary (Error e)
  /\ diag.HasError (resource.Diagnostics resp') = true.

(** The shape shared by the callbacks that decode a response. *)
Definition runs `{T : http.Transport} {M A : Type} (resp resp' : resource.Response M)
    (w w' : http.World)
    (call : (option DoJSONError * option A) * http.World)
    (summary : string) (ok : option A -> M) : Prop :=
  (diag.HasError (resource.Diagnostics resp) = true /\ resp' = resp /\ w' = w)
  \/ (diag.HasError (resource.Diagnostics resp) = false
      /\ exists err after,
           call = ((err, after), w')
           /\ match err with
              | Some e => fails_with resp resp' summary e
              | None => resp' = {| resource.Diagnostics :=
                                     resource.Diagnostics resp;
                                   resource.State := ok after |}
              end).

(** The attributes of a schema whose change forces replacement, and
    those that may change in place. *)
Definition identity_attributes (s : schema.Schema) : list string :=
  map fst (filter (fun na => schema.forcesReplacement (snd na))
             (schema.Attributes s)).

Definition in_place_attributes (s : schema.Schema) : list string :=
  map fst (filter (fun na => negb (schema.forcesReplacement (snd na)))
             (schema.Attributes s)).

(** ** A scripted remote service, to run the callbacks on examples *)

Module scripted.

(** The service answers the requests with the responses of a script, in
    order; once the script is used up the connection fails. *)
#[local] Instance transport : http.Transport :=
  {| http.RemoteState := list (result http.Response);
     http.NewRequest_check := fun method _ =>
       if String.eqb method "" then Some "net/http: invalid method"
       else None;
     http.RoundTrip := fun _ script =>
       match script with
       | [] => (Err "connection refused", [])
       | r :: rest => (r, rest)
       end |}.

Definition world (script : list (result http.Response)) : http.World :=
  {| http.exchanges := []; http.remote := script |}.

Definition field (name value : string) : string := name ++ "=" ++ value.

(** Encoders that write the fields one after the other, unescaped. *)
#[local] Instance marshal_host : json.Marshaler hostAPIRequest.t :=
  fun r => Ok (field "address" (hostAPIRequest.Address r) ++ ";"
               ++ field "name" (hostAPIRequest.Name r) ++ ";"
               ++ field "description" (hostAPIRequest.Description r) ++ ";"
               ++ field "topic" (hostAPIRequest.Topic r) ++ ";"
               ++ field "enabled" (fmt.d (hostAPIRequest.Enabled r))).

#[local] Instance marshal_host_delete : json.Marshaler hostDeleteRequest.t :=
  fun r => Ok (field "address" (hostDeleteRequest.Address r)).

#[local] Instance marshal_check : json.Marshaler checkAPIRequest.t :=
  fun r => Ok (field "host_address" (checkAPIRequest.HostAddress r) ++ ";"
               ++ field "type" (checkAPIRequest.Type_ r) ++ ";"
               ++ field "config" (checkAPIRequest.Config r) ++ ";"
               ++ field "interval_seconds"
                    (fmt.d (checkAPIRequest.IntervalSeconds r)) ++ ";"
               ++ field "enabled" (fmt.d (checkAPIRequest.Enabled r))).

#[local] Instance marshal_check_delete
    : json.Marshaler checkDeleteRequest.t :=
  fun r => Ok (field "host_address" (checkDeleteRequest.HostAddress r) ++ ";"
               ++ field "type" (checkDeleteRequest.Type_ r) ++ ";"
               ++ field "config" (checkDeleteRequest.Config r)).

(** Decoders for documents that hold one field only: the host's address,
    the check's type.  A document starting with [!] is malformed. *)
Definition malformed (data : string) : bool :=
  match data with
  | String "!" _ => true
  | _ => false
  end.

#[local] Instance unmarshal_host : json.Unmarshaler hostAPIResponse.t :=
  fun data dst =>
    if malformed data then (dst, Some "invalid character '!'")
    else ({| hostAPIResponse.ID := hostAPIResponse.ID dst;
             hostAPIResponse.Name := hostAPIResponse.Name dst;
             hostAPIResponse.Address := data;
             hostAPIResponse.Description := hostAPIResponse.Description dst;
             hostAPIResponse.Topic := hostAPIResponse.Topic dst;
             hostAPIResponse.Enabled := hostAPIResponse.Enabled dst |}, None).

#[local] Instance unmarshal_check : json.Unmarshaler checkAPIResponse.t :=
  fun data dst =>
    if malformed data then (dst, Some "invalid character '!'")
    else ({| checkAPIResponse.ID := checkAPIResponse.ID dst;
             checkAPIResponse.HostID := checkAPIResponse.HostID dst;
             checkAPIResponse.Type_ := data;
             checkAPIResponse.Config := checkAPIResponse.Config dst;
             checkAPIResponse.IntervalSeconds :=
               checkAPIResponse.IntervalSeconds dst;
             checkAPIResponse.Enabled := checkAPIResponse.Enabled dst |},
          None).

Definition client : TinyMonClient :=
  {| URL := "https://mon.example.com/"; APIKey := "secret" |}.

Definition fresh {M : Type} (st : M) : resource.Response M :=
  {| resource.Diagnostics := []; resource.State := st |}.

End scripted.


(** ** Further vocabulary *)


(** The request [DoJSON] hands to the transport for the marshalled body
    [data] ([None] when the call has no body). *)
Definition request_of (c : TinyMonClient) (method path : string)
    (data : option string) : http.Request :=
  let hdr := http.Header_Set [] "Authorization" ("Bearer " ++ APIKey c) in
  let hdr := match data with
             | Some _ => http.Header_Set hdr "Content-Type" "application/json"
             | None => hdr
             end in
  let hdr := http.Header_Set hdr "Accept" "application/json" in
  {| http.Method := method;
     http.URL := strings.TrimRight (URL c) "/" ++ path;
     http.Hdr := hdr;
     http.Body := data |}.







(** The bytes [QueryEscape] leaves as they are. *)
Definition unreserved (c : ascii) : bool := negb (url.shouldEscape c).

(** Every byte of [s] satisfies [p]. *)
Fixpoint all_bytes (p : ascii -> bool) (s : string) : bool :=
  match s with
  | EmptyString => true
  | String c rest => p c && all_bytes p rest
  end.

(** The value of an upper-case hexadecimal digit. *)
Definition unhex (c : ascii) : option nat :=
  let n := nat_of_ascii c in
  if ((48 <=? n) && (n <=? 57))%nat then Some (n - 48)%nat
  else if ((65 <=? n) && (n <=? 70))%nat then Some (n - 55)%nat
  else None.

(** Reading an escaped query component back: [+] is a space, [%XY] the
    byte with that hexadecimal code, anything else itself.  [None] for a
    truncated or malformed escape. *)
Fixpoint unescape (s : string) : option string :=
  match s with
  | EmptyString => Some EmptyString
  | String "%" (String h (String l rest)) =>
      match unhex h, unhex l, unescape rest with
      | Some a, Some b, Some r => Some (String (ascii_of_nat (a * 16 + b)) r)
      | _, _, _ => None
      end
  | String "%" _ => None
  | String "+" rest =>
      match unescape rest with
      | Some r => Some (String " " r)
      | None => None
      end
  | String c rest =>
      match unescape rest with
      | Some r => Some (String c r)
      | None => None
      end
  end.

(** The query paths of the two Read callbacks. *)
Definition host_read_path (address : string) : string :=
  "/api/push/hosts?address=" ++ url.QueryEscape address.

Definition check_read_path (host type config : string) : string :=
  "/api/push/checks?host_address=" ++ url.QueryEscape host
  ++ "&type=" ++ url.QueryEscape type
  ++ "&config=" ++ url.QueryEscape config.

(** A callback either reports an error and returns the state it was
    handed, or reports nothing new and no error at all. *)
Definition all_or_nothing {M : Type} (resp resp' : resource.Response M)
    : Prop :=
  (resource.State resp' = resource.State resp
   /\ diag.HasError (resource.Diagnostics resp') = true)
  \/ (resource.Diagnostics resp' = resource.Diagnostics resp
      /\ diag.HasError (resource.Diagnostics resp') = false).


(** The bytes an escaped query component is made of: the unreserved
    ones, [+] for a space and [%] starting an escape. *)
Definition query_safe (c : ascii) : bool :=
  unreserved c || Ascii.eqb c "+" || Ascii.eqb c "%".

(** Reading a request path the way a server does: the text before [?],
    and the parameters after it, separated by [&], each a name and, after
    the first [=], an escaped value. *)
Definition parse_parameter (kv : string) : string * option string :=
  match strings.Cut kv "=" with
  | Some (name, value) => (name, unescape value)
  | None => (kv, Some "")
  end.

Definition parse_request_path (path : string)
    : string * list (string * option string) :=
  match strings.Cut path "?" with
  | Some (before, query) =>
      (before, map parse_parameter (strings.SplitN query "&" (-1)))
  | None => (path, [])
  end.

(** * Properties *)

Unset Implicit Arguments.

(** ** The library functions on examples *)

Example SplitN_three : strings.SplitN "a/b/c/d" "/" 3 = ["a"; "b"; "c/d"].
Proof. reflexivity. Qed.

Example SplitN_empty : strings.SplitN "" "/" 3 = [""].
Proof. reflexivity. Qed.

Example SplitN_all : strings.SplitN "a/b/c/d" "/" (-1) = ["a"; "b"; "c"; "d"].
Proof. reflexivity. Qed.

Example SplitN_empty_pieces : strings.SplitN "/" "/" 3 = [""; ""].
Proof. reflexivity. Qed.

Example TrimRight_slashes :
  strings.TrimRight "https://mon.example.com//" "/" = "https://mon.example.com".
Proof. reflexivity. Qed.

Example TrimRight_inner : strings.TrimRight "/a/b" "/" = "/a/b".
Proof. reflexivity. Qed.

Example QueryEscape_config :
  url.QueryEscape "{a b}/~" = "%7Ba+b%7D%2F~".
Proof. reflexivity. Qed.

Example fmt_d_404 : fmt.d 404 = "404".
Proof. reflexivity. Qed.

Example fmt_d_negative : fmt.d (-7) = "-7".
Proof. reflexivity. Qed.

Example AddError_once :
  List.length (diag.AddError (diag.AddError [] "s" "d") "s" "d") = 1%nat.
Proof. reflexivity. Qed.

(** ** Facts about the string functions *)

Module strings_facts.
Import strings.

Lemma append_nil_r (s : string) : s ++ "" = s.
Proof. induction s as [|a s IH]; simpl; [reflexivity | now rewrite IH]. Qed.

Lemma append_assoc (a b c : string) : (a ++ b) ++ c = a ++ b ++ c.
Proof. induction a as [|x a IH]; simpl; [reflexivity | now rewrite IH]. Qed.

Lemma Contains_middle (pre s post : string) : Contains (pre ++ s ++ post) s.
Proof. now exists pre, post. Qed.

Lemma Contains_suffix (pre s : string) : Contains (pre ++ s) s.
Proof. exists pre, ""; now rewrite append_nil_r. Qed.

Lemma Contains_append_r (p s x : string) : Contains s x -> Contains (p ++ s) x.
Proof.
  intros (pre & post & ->). exists (p ++ pre), post.
  now rewrite append_assoc.
Qed.

Lemma Cut_spec (c : ascii) (s before after : string) :
  Cut s c = Some (before, after) ->
  s = before ++ String c after /\ free_of c before = true.
Proof.
  revert before after.
  induction s as [|a s IH]; intros before after; simpl; [discriminate|].
  destruct (Ascii.eqb a c) eqn:E.
  - intros [= <- <-]. apply Ascii.eqb_eq in E. subst a. now split.
  - destruct (Cut s c) as [[b' a']|]; [|discriminate].
    intros [= <- <-]. destruct (IH _ _ eq_refl) as [-> Hf].
    simpl. rewrite E, Hf. now split.
Qed.

Lemma Cut_free (c : ascii) (s : string) :
  free_of c s = true -> Cut s c = None.
Proof.
  induction s as [|a s IH]; simpl; [reflexivity|].
  destruct (Ascii.eqb a c); simpl; [discriminate|].
  intros H. now rewrite (IH H).
Qed.

Lemma Cut_None_free (c : ascii) (s : string) :
  Cut s c = None -> free_of c s = true.
Proof.
  induction s as [|a s IH]; simpl; [reflexivity|].
  destruct (Ascii.eqb a c); simpl; [discriminate|].
  destruct (Cut s c) as [[b' a']|]; [discriminate|]. intros _. now apply IH.
Qed.

Lemma Cut_first (c : ascii) (before after : string) :
  free_of c before = true ->
  Cut (before ++ String c after) c = Some (before, after).
Proof.
  induction before as [|a s IH]; simpl.
  - now rewrite Ascii.eqb_refl.
  - destruct (Ascii.eqb a c); simpl; [discriminate|].
    intros H. now rewrite (IH H).
Qed.

Lemma splitLoop_free (c : ascii) (k : nat) (s : string) :
  free_of c s = true -> splitLoop k s c = [s].
Proof.
  intros H. destruct k; simpl; [reflexivity|]. now rewrite (Cut_free _ _ H).
Qed.

Lemma splitLoop_length (c : ascii) (k : nat) (s : string) :
  (1 <= List.length (splitLoop k s c) <= S k)%nat.
Proof.
  revert s. induction k as [|k IH]; intros s; simpl; [lia|].
  destruct (Cut s c) as [[b a]|]; simpl; [|lia].
  specialize (IH a). lia.
Qed.

Lemma Join_cons (p : string) (rest : list string) (sep : string) :
  rest <> [] -> Join (p :: rest) sep = p ++ sep ++ Join rest sep.
Proof. destruct rest; [congruence | reflexivity]. Qed.

Lemma splitLoop_Join (c : ascii) (k : nat) (s : string) :
  Join (splitLoop k s c) (String c "") = s.
Proof.
  revert s. induction k as [|k IH]; intros s; simpl; [reflexivity|].
  destruct (Cut s c) as [[b a]|] eqn:E; [|reflexivity].
  destruct (Cut_spec _ _ _ _ E) as [-> _].
  rewrite Join_cons.
  - now rewrite IH.
  - intros Hnil. pose proof (splitLoop_length c k a) as L.
    rewrite Hnil in L. simpl in L. lia.
Qed.

(** Every piece but the last one is free of the separator. *)
Lemma splitLoop_pieces (c : ascii) (k : nat) (s : string) (i : nat) :
  (S i < List.length (splitLoop k s c))%nat ->
  free_of c (nth i (splitLoop k s c) "") = true.
Proof.
  revert s i. induction k as [|k IH]; intros s i; simpl; [lia|].
  destruct (Cut s c) as [[b a]|] eqn:E; simpl; [|lia].
  destruct i as [|i].
  - intros _. now destruct (Cut_spec _ _ _ _ E).
  - intros H. apply IH. lia.
Qed.

Lemma length_append (a b : string) :
  String.length (a ++ b) = (String.length a + String.length b)%nat.
Proof. induction a as [|x a IH]; simpl; [reflexivity | now rewrite IH]. Qed.

(** [SplitN] with [n = 3] runs the loop with at most two cuts. *)
Lemma SplitN_3 (s : string) :
  SplitN s "/" 3 = splitLoop (Nat.min 2 (String.length s)) s "/".
Proof.
  unfold SplitN. change (3 =? 0) with false. change (3 <? 0) with false.
  cbv iota zeta.
  destruct (Z.gtb_spec 3 (Z.of_nat (String.length s) + 1)); f_equal; lia.
Qed.

Lemma free_of_append (c : ascii) (a b : string) :
  free_of c (a ++ b) = free_of c a && free_of c b.
Proof.
  induction a as [|x a IH]; simpl; [reflexivity|].
  rewrite IH. now rewrite andb_assoc.
Qed.

End strings_facts.

(** ** Check import identifiers *)

Section CheckImport.
Import strings strings_facts.

Variable resp : resource.Response checkResourceModel.t.

Lemma import_of_parts (ID : string) (parts : list string) :
  SplitN ID "/" 3 = parts ->
  (2 <= List.length parts)%nat ->
  checkResource_ImportState ID resp =
  {| resource.Diagnostics := resource.Diagnostics resp;
     resource.State :=
       imported (resource.State resp) (nth 0 parts "") (nth 1 parts "")
         (if (List.length parts =? 3)%nat then nth 2 parts "" else "{}") |}.
Proof.
  intros Hp Hlen. unfold checkResource_ImportState. rewrite Hp.
  destruct (Nat.ltb_spec (List.length parts) 2) as [Hlt|_]; [lia|].
  reflexivity.
Qed.

Lemma SplitN_3_none (ID : string) :
  free_of "/" ID = true -> SplitN ID "/" 3 = [ID].
Proof. intros H. rewrite SplitN_3. now apply splitLoop_free. Qed.

Lemma SplitN_3_two (a b : string) :
  free_of "/" a = true -> free_of "/" b = true ->
  SplitN (a ++ "/" ++ b) "/" 3 = [a; b].
Proof.
  intros Ha Hb. rewrite SplitN_3, length_append. simpl String.length.
  replace (Nat.min 2 (String.length a + S (String.length b)))
    with (S (Nat.min 1 (String.length a + String.length b))) by lia.
  simpl. rewrite Cut_first by assumption. now rewrite splitLoop_free.
Qed.

Lemma SplitN_3_three (a b c : string) :
  free_of "/" a = true -> free_of "/" b = true ->
  SplitN (a ++ "/" ++ b ++ "/" ++ c) "/" 3 = [a; b; c].
Proof.
  intros Ha Hb. rewrite SplitN_3, !length_append. simpl String.length.
  replace (Nat.min 2 _) with 2%nat by lia.
  simpl. now rewrite !Cut_first by assumption.
Qed.

End CheckImport.

(** C1.  A check import identifier is cut at its first two slashes only:
    [SplitN] returns one to three pieces that joined by slashes give the
    identifier back, all but the last free of slashes.  An identifier
    without a slash is rejected with the invalid-import-ID error and the
    state is not written; [host/type] sets host_address, type and the
    config [{}]; [host/type/rest] sets config to [rest] verbatim, slashes
    included. *)
Theorem C1_check_import_parsing :
  forall (ID : string) (resp : resource.Response checkResourceModel.t),
    let parts := strings.SplitN ID "/" 3 in
    ((1 <= List.length parts <= 3)%nat
     /\ strings.Join parts "/" = ID
     /\ forall i, (S i < List.length parts)%nat ->
                  strings.free_of "/" (nth i parts "") = true)
    /\ (strings.free_of "/" ID = true ->
        checkResource_ImportState ID resp =
        {| resource.Diagnostics :=
             diag.AddError (resource.Diagnostics resp) "Invalid import ID"
               "Import ID must be: host_address/type or host_address/type/config";
           resource.State := resource.State resp |})
    /\ (forall host type,
          ID = host ++ "/" ++ type ->
          strings.free_of "/" host = true ->
          strings.free_of "/" type = true ->
          checkResource_ImportState ID resp =
          {| resource.Diagnostics := resource.Diagnostics resp;
             resource.State := imported (resource.State resp) host type "{}" |})
    /\ (forall host type config,
          ID = host ++ "/" ++ type ++ "/" ++ config ->
          strings.free_of "/" host = true ->
          strings.free_of "/" type = true ->
          checkResource_ImportState ID resp =
          {| resource.Diagnostics := resource.Diagnostics resp;
             resource.State :=
               imported (resource.State resp) host type config |}).
Proof.
  intros ID resp parts. repeat split.
  - subst parts. rewrite strings_facts.SplitN_3.
    apply strings_facts.splitLoop_length.
  - subst parts. rewrite strings_facts.SplitN_3.
    pose proof (strings_facts.splitLoop_length "/"
                  (Nat.min 2 (String.length ID)) ID). lia.
  - subst parts. rewrite strings_facts.SplitN_3.
    apply strings_facts.splitLoop_Join.
  - subst parts. rewrite strings_facts.SplitN_3.
    apply strings_facts.splitLoop_pieces.
  - intros Hfree. unfold checkResource_ImportState.
    now rewrite (SplitN_3_none ID Hfree).
  - intros host type -> Hh Ht.
    now rewrite (import_of_parts resp _ _ (SplitN_3_two _ _ Hh Ht)) by (simpl; lia).
  - intros host type config -> Hh Ht.
    now rewrite (import_of_parts resp _ _ (SplitN_3_three _ _ config Hh Ht))
      by (simpl; lia).
Qed.

(** The two identifiers of the documentation, and one without a slash. *)
Lemma C1_check_import_parsing_witness :
  let dq := String (ascii_of_nat 34) "" in
  let cfg := "{" ++ dq ++ "mount" ++ dq ++ ":" ++ dq ++ "/" ++ dq ++ "}" in
  let resp := scripted.fresh checkResourceModel.null in
  resource.State (checkResource_ImportState ("192.168.1.10/disk/" ++ cfg) resp)
  = imported checkResourceModel.null "192.168.1.10" "disk" cfg
  /\ resource.State (checkResource_ImportState "192.168.1.10/ping" resp)
     = imported checkResourceModel.null "192.168.1.10" "ping" "{}"
  /\ resource.State (checkResource_ImportState "ping" resp)
     = checkResourceModel.null.
Proof.
  cbv zeta. split; [|split].
  - match goal with
    | |- resource.State (checkResource_ImportState ?id ?r) = _ =>
        destruct (C1_check_import_parsing id r) as (_ & _ & _ & H)
    end.
    rewrite (H "192.168.1.10" "disk" _ eq_refl eq_refl eq_refl). reflexivity.
  - destruct (C1_check_import_parsing "192.168.1.10/ping"
                (scripted.fresh checkResourceModel.null)) as (_ & _ & H & _).
    rewrite (H "192.168.1.10" "ping" eq_refl eq_refl eq_refl). reflexivity.
  - destruct (C1_check_import_parsing "ping"
                (scripted.fresh checkResourceModel.null)) as (_ & H & _).
    rewrite (H eq_refl). reflexivity.
Defined.

(** ** Facts about diagnostics *)

Lemma Diagnostic_eqb_isError (x y : diag.Diagnostic) :
  diag.Diagnostic_eqb x y = true -> diag.isError y = diag.isError x.
Proof.
  unfold diag.Diagnostic_eqb, diag.isError.
  destruct (diag.severity x), (diag.severity y); simpl; congruence.
Qed.

Lemma HasError_AddError (ds : diag.Diagnostics) (sum det : string) :
  diag.HasError (diag.AddError ds sum det) = true.
Proof.
  unfold diag.AddError. simpl.
  destruct (diag.Contains ds _) eqn:E.
  - unfold diag.Contains in E. apply existsb_exists in E.
    destruct E as (y & Hin & Hy). apply Diagnostic_eqb_isError in Hy.
    unfold diag.HasError. apply existsb_exists. exists y. now split.
  - unfold diag.HasError. rewrite existsb_app. simpl. apply orb_true_r.
Qed.

Lemma HasError_false_not_AddError (ds : diag.Diagnostics) (sum det : string) :
  diag.HasError ds = false -> diag.AddError ds sum det <> ds.
Proof.
  intros H E. pose proof (HasError_AddError ds sum det) as H'.
  rewrite E in H'. congruence.
Qed.

(** ** Facts about [DoJSON] *)

Section DoJSON_facts.

Context `{T : http.Transport}.
Context {B R : Type} {MB : json.Marshaler B} {UR : json.Unmarshaler R}.

Variables (c : TinyMonClient) (method path : string).
Variables (body : option B) (dest : option R) (w : http.World).

(** [DoJSON] is [send] followed by [outcome]. *)
Lemma DoJSON_split :
  DoJSON c method path body dest w
  = match send c method path body w with
    | inl e => ((Some e, dest), w)
    | inr (r, w') => (outcome method path dest r, w')
    end.
Proof.
  unfold DoJSON, send, outcome.
  destruct body as [b|]; [destruct (json.Marshal b)|];
    try reflexivity;
    (destruct (http.NewRequest _ _ _); [|reflexivity]);
    (destruct (http.Do _ _) as [[resp|e] w0]; [|reflexivity]);
    (destruct (http.ReadAll resp); [|reflexivity]);
    (destruct (_ || _); [reflexivity|]);
    (destruct dest as [dst|]; [|reflexivity]);
    (destruct (_ <? _)%nat; [|reflexivity]);
    now destruct (json.Unmarshal _ _) as [dst' [e|]].
Qed.

(** [send] gives up on a marshalling or request-construction error only;
    otherwise it makes exactly one exchange, with a request for the trimmed
    base URL followed by the path. *)
Lemma send_inv :
  match send c method path body w with
  | inl e => exists m, e = ErrMarshal m \/ e = ErrCreateRequest m
  | inr (r, w') =>
      exists req,
        http.exchanges w' = (http.exchanges w ++ [(req, r)])%list
        /\ http.Method req = method
        /\ http.URL req = strings.TrimRight (URL c) "/" ++ path
        /\ match body with
           | Some b => exists data, json.Marshal b = Ok data
                                    /\ http.Body req = Some data
           | None => http.Body req = None
           end
  end.
Proof.
  unfold send, http.NewRequest, http.Do.
  destruct body as [b|]; [destruct (json.Marshal b) as [data|e] eqn:EM|];
    eauto;
    (destruct (http.NewRequest_check _ _); eauto);
    cbn [http.Method http.URL http.Hdr http.Body];
    destruct (http.RoundTrip _ _) as [r rs];
    eexists; cbn [http.exchanges http.Method http.URL http.Body];
    repeat split; eauto.
Qed.

(** [DoJSON] either gives up before anything is sent, leaving the world
    as it is, or makes exactly one exchange and returns what [outcome]
    says. *)
Lemma DoJSON_inv (err : option DoJSONError) (after : option R)
    (w' : http.World) :
  DoJSON c method path body dest w = ((err, after), w') ->
  (w' = w /\ after = dest
   /\ exists e, err = Some (ErrMarshal e) \/ err = Some (ErrCreateRequest e))
  \/ (exists req r,
        http.exchanges w' = (http.exchanges w ++ [(req, r)])%list
        /\ http.Method req = method
        /\ http.URL req = strings.TrimRight (URL c) "/" ++ path
        /\ match body with
           | Some b => exists data, json.Marshal b = Ok data
                                    /\ http.Body req = Some data
           | None => http.Body req = None
           end
        /\ (err, after) = outcome method path dest r
        /\ send c method path body w = inr (r, w')).
Proof.
  rewrite DoJSON_split. pose proof send_inv as Hs.
  destruct (send c method path body w) as [e|[r w0]].
  - intros [= <- <- <-]. left. destruct Hs as (m & [-> | ->]); eauto.
  - intros [= Hout <-]. right. destruct Hs as (req & Hx & Hm & Hu & Hb).
    exists req, r. rewrite Hout. auto 10.
Qed.

End DoJSON_facts.

(** What a completed exchange tells about the result of [DoJSON]. *)
Lemma DoJSON_answered `{T : http.Transport} {B R : Type}
    {MB : json.Marshaler B} {UR : json.Unmarshaler R}
    (c : TinyMonClient) (method path : string) (body : option B)
    (dest : option R) (w w' : http.World) (err : option DoJSONError)
    (after : option R) (req : http.Request) (reply : http.Response) :
  DoJSON c method path body dest w = ((err, after), w') ->
  answered w w' req reply ->
  (err, after) = outcome method path dest (Ok reply)
  /\ http.Method req = method
  /\ http.URL req = strings.TrimRight (URL c) "/" ++ path
  /\ match body with
     | Some b => exists data, json.Marshal b = Ok data
                              /\ http.Body req = Some data
     | None => http.Body req = None
     end
  /\ send c method path body w = inr (Ok reply, w').
Proof.
  intros H A. unfold answered in A.
  destruct (DoJSON_inv _ _ _ _ _ _ _ _ _ H)
    as [(-> & _)|(req' & r & Hx & Hm & Hu & Hb & Hout & Hsend)].
  - exfalso. apply (f_equal (@List.length _)) in A.
    rewrite length_app in A. simpl in A. lia.
  - rewrite Hx in A. apply app_inv_head in A. injection A as -> ->. auto 10.
Qed.

(** No exchange, or a failed one, is never [answered]. *)
Lemma not_answered_same `{T : http.Transport} (w : http.World)
    (req : http.Request) (reply : http.Response) : ~ answered w w req reply.
Proof.
  unfold answered. intros A. apply (f_equal (@List.length _)) in A.
  rewrite length_app in A. simpl in A. lia.
Qed.

(** ** Facts about the callbacks *)

Section Callbacks_facts.

Context `{T : http.Transport}.
Context {MHR : json.Marshaler hostAPIRequest.t}
        {MHD : json.Marshaler hostDeleteRequest.t}
        {MCR : json.Marshaler checkAPIRequest.t}
        {MCD : json.Marshaler checkDeleteRequest.t}
        {UH : json.Unmarshaler hostAPIResponse.t}
        {UC : json.Unmarshaler checkAPIResponse.t}.

(** Splits an unfolded callback in [H] at its guard and its [DoJSON] call. *)
Ltac callback_inv H resp :=
  destruct (diag.HasError (resource.Diagnostics resp)) eqn:?;
  [ injection H as <- <-; left; auto
  | right; split; [reflexivity|];
    match type of H with
    | context [DoJSON ?c ?m ?p ?b ?d ?w] =>
        destruct (DoJSON c m p b d w) as [[[e|] after] w0] eqn:?;
        injection H as <- <-; do 2 eexists; (split; [reflexivity|]);
        cbv beta iota;
        [ unfold fails_with; cbn [resource.Diagnostics resource.State];
          repeat split; apply HasError_AddError
        | try reflexivity; now destruct resp ]
    end ].

Lemma hostResource_Create_inv c plan resp w resp' w' :
  hostResource_Create c plan resp w = (resp', w') ->
  runs resp resp' w w'
    (DoJSON c "POST" "/api/push/hosts" (Some (hostResource_Create_body plan))
       (Some hostAPIResponse.zero) w)
    "Error creating host"
    (fun after => mapHostResponseToState (deref after hostAPIResponse.zero) plan).
Proof.
  intros H. unfold runs, hostResource_Create in *. callback_inv H resp.
Qed.

Lemma hostResource_Read_inv c state resp w resp' w' :
  hostResource_Read c state resp w = (resp', w') ->
  runs resp resp' w w'
    (DoJSON (B := json.untyped_nil) c "GET" ("/api/push/hosts?address="
        ++ url.QueryEscape (ValueString (hostResourceModel.Address state))) None
       (Some hostAPIResponse.zero) w)
    "Error reading host"
    (fun after => mapHostResponseToState (deref after hostAPIResponse.zero) state).
Proof.
  intros H. unfold runs, hostResource_Read in *. callback_inv H resp.
Qed.

Lemma hostResource_Update_inv c plan resp w resp' w' :
  hostResource_Update c plan resp w = (resp', w') ->
  runs resp resp' w w'
    (DoJSON c "POST" "/api/push/hosts" (Some (hostResource_Update_body plan))
       (Some hostAPIResponse.zero) w)
    "Error updating host"
    (fun after => mapHostResponseToState (deref after hostAPIResponse.zero) plan).
Proof.
  intros H. unfold runs, hostResource_Update in *. callback_inv H resp.
Qed.

Lemma hostResource_Delete_inv c state resp w resp' w' :
  hostResource_Delete c state resp w = (resp', w') ->
  runs resp resp' w w'
    (DoJSON (R := json.untyped_nil) c "DELETE" "/api/push/hosts" (Some {| hostDeleteRequest.Address :=
                  ValueString (hostResourceModel.Address state) |})
       None w)
    "Error deleting host"
    (fun after => resource.State resp).
Proof.
  intros H. unfold runs, hostResource_Delete in *. callback_inv H resp.
Qed.

Lemma checkResource_Create_inv c plan resp w resp' w' :
  checkResource_Create c plan resp w = (resp', w') ->
  runs resp resp' w w'
    (DoJSON c "POST" "/api/push/checks" (Some (checkResource_Create_body plan))
       (Some checkAPIResponse.zero) w)
    "Error creating check"
    (fun after => mapCheckResponseToState (deref after checkAPIResponse.zero) plan).
Proof.
  intros H. unfold runs, checkResource_Create in *. callback_inv H resp.
Qed.

Lemma checkResource_Read_inv c state resp w resp' w' :
  checkResource_Read c state resp w = (resp', w') ->
  runs resp resp' w w'
    (DoJSON (B := json.untyped_nil) c "GET" ("/api/push/checks?host_address="
        ++ url.QueryEscape (ValueString (checkResourceModel.HostAddress state))
        ++ "&type="
        ++ url.QueryEscape (ValueString (checkResourceModel.Type_ state))
        ++ "&config="
        ++ url.QueryEscape (ValueString (checkResourceModel.Config state))) None
       (Some checkAPIResponse.zero) w)
    "Error reading check"
    (fun after => mapCheckResponseToState (deref after checkAPIResponse.zero) state).
Proof.
  intros H. unfold runs, checkResource_Read in *. callback_inv H resp.
Qed.

Lemma checkResource_Update_inv c plan resp w resp' w' :
  checkResource_Update c plan resp w = (resp', w') ->
  runs resp resp' w w'
    (DoJSON c "POST" "/api/push/checks" (Some (checkResource_Update_body plan))
       (Some checkAPIResponse.zero) w)
    "Error updating check"
    (fun after => mapCheckResponseToState (deref after checkAPIResponse.zero) plan).
Proof.
  intros H. unfold runs, checkResource_Update in *. callback_inv H resp.
Qed.

Lemma checkResource_Delete_inv c state resp w resp' w' :
  checkResource_Delete c state resp w = (resp', w') ->
  runs resp resp' w w'
    (DoJSON (R := json.untyped_nil) c "DELETE" "/api/push/checks" (Some {| checkDeleteRequest.HostAddress :=
                  ValueString (checkResourceModel.HostAddress state);
                checkDeleteRequest.Type_ :=
                  ValueString (checkResourceModel.Type_ state);
                checkDeleteRequest.Config :=
                  ValueString (checkResourceModel.Config state) |})
       None w)
    "Error deleting check"
    (fun after => resource.State resp).
Proof.
  intros H. unfold runs, checkResource_Delete in *. callback_inv H resp.
Qed.





End Callbacks_facts.


(** ** The wire encoding of [enabled] *)

(** C3.  In the request bodies of the host and check upserts an explicit
    [false] is sent as 0 and a null or [true] value as 1; reading a
    response, 0 becomes [false] and every other value [true].  A definite
    boolean therefore survives being sent and read back, and a wire value
    0 or 1 survives being read and sent again. *)
Theorem C3_enabled_round_trip :
  forall (hp hs : hostResourceModel.t) (hr : hostAPIResponse.t)
         (cp cs : checkResourceModel.t) (cr : checkAPIResponse.t) (b : bool),
    (* encoding *)
    (hostResourceModel.Enabled hp = types.BoolValue false ->
       hostAPIRequest.Enabled (hostResource_Create_body hp) = 0
       /\ hostAPIRequest.Enabled (hostResource_Update_body hp) = 0)
    /\ (hostResourceModel.Enabled hp = types.BoolNull
        \/ hostResourceModel.Enabled hp = types.BoolValue true ->
          hostAPIRequest.Enabled (hostResource_Create_body hp) = 1
          /\ hostAPIRequest.Enabled (hostResource_Update_body hp) = 1)
    /\ (checkResourceModel.Enabled cp = types.BoolValue false ->
          checkAPIRequest.Enabled (checkResource_Create_body cp) = 0
          /\ checkAPIRequest.Enabled (checkResource_Update_body cp) = 0)
    /\ (checkResourceModel.Enabled cp = types.BoolNull
        \/ checkResourceModel.Enabled cp = types.BoolValue true ->
          checkAPIRequest.Enabled (checkResource_Create_body cp) = 1
          /\ checkAPIRequest.Enabled (checkResource_Update_body cp) = 1)
    (* decoding *)
    /\ (hostAPIResponse.Enabled hr = 0 ->
          hostResourceModel.Enabled (mapHostResponseToState hr hs)
          = types.BoolValue false)
    /\ (hostAPIResponse.Enabled hr <> 0 ->
          hostResourceModel.Enabled (mapHostResponseToState hr hs)
          = types.BoolValue true)
    /\ (checkAPIResponse.Enabled cr = 0 ->
          checkResourceModel.Enabled (mapCheckResponseToState cr cs)
          = types.BoolValue false)
    /\ (checkAPIResponse.Enabled cr <> 0 ->
          checkResourceModel.Enabled (mapCheckResponseToState cr cs)
          = types.BoolValue true)
    (* a boolean sent and read back *)
    /\ (hostResourceModel.Enabled hp = types.BoolValue b ->
        hostAPIResponse.Enabled hr
        = hostAPIRequest.Enabled (hostResource_Create_body hp) ->
          hostResourceModel.Enabled (mapHostResponseToState hr hs)
          = types.BoolValue b)
    /\ (checkResourceModel.Enabled cp = types.BoolValue b ->
        checkAPIResponse.Enabled cr
        = checkAPIRequest.Enabled (checkResource_Create_body cp) ->
          checkResourceModel.Enabled (mapCheckResponseToState cr cs)
          = types.BoolValue b)
    (* a wire value read and sent again *)
    /\ (hostAPIResponse.Enabled hr = 0 \/ hostAPIResponse.Enabled hr = 1 ->
          hostAPIRequest.Enabled
            (hostResource_Update_body (mapHostResponseToState hr hs))
          = hostAPIResponse.Enabled hr)
    /\ (checkAPIResponse.Enabled cr = 0 \/ checkAPIResponse.Enabled cr = 1 ->
          checkAPIRequest.Enabled
            (checkResource_Update_body (mapCheckResponseToState cr cs))
          = checkAPIResponse.Enabled cr).
Proof.
  intros hp hs hr cp cs cr b.
  unfold hostResource_Create_body, hostResource_Update_body,
    checkResource_Create_body, checkResource_Update_body,
    mapHostResponseToState, mapCheckResponseToState.
  cbn [hostAPIRequest.Enabled checkAPIRequest.Enabled
       hostResourceModel.Enabled checkResourceModel.Enabled].
  repeat apply conj.
  - now intros ->.
  - now intros [-> | ->].
  - now intros ->.
  - now intros [-> | ->].
  - now intros ->.
  - intros H. apply Z.eqb_neq in H. now rewrite H.
  - now intros ->.
  - intros H. apply Z.eqb_neq in H. now rewrite H.
  - intros -> ->. now destruct b.
  - intros -> ->. now destruct b.
  - now intros [-> | ->].
  - now intros [-> | ->].
Qed.

(** A disabled host plan, and a response that says 7. *)
Lemma C3_enabled_round_trip_witness :
  let hp := {| hostResourceModel.ID := types.Int64Unknown;
               hostResourceModel.Address := types.StringValue "192.168.1.10";
               hostResourceModel.Name := types.StringValue "Webserver";
               hostResourceModel.Description := types.StringValue "";
               hostResourceModel.Topic := types.StringValue "";
               hostResourceModel.Enabled := types.BoolValue false |} in
  let hr := {| hostAPIResponse.ID := 4; hostAPIResponse.Name := "Webserver";
               hostAPIResponse.Address := "192.168.1.10";
               hostAPIResponse.Description := ""; hostAPIResponse.Topic := "";
               hostAPIResponse.Enabled := 7 |} in
  hostAPIRequest.Enabled (hostResource_Create_body hp) = 0
  /\ hostResourceModel.Enabled (mapHostResponseToState hr hp)
     = types.BoolValue true.
Proof.
  intros hp hr.
  destruct (C3_enabled_round_trip hp hp hr checkResourceModel.null
              checkResourceModel.null checkAPIResponse.zero false)
    as (Henc & _ & _ & _ & _ & Hdec & _).
  split.
  - apply Henc. reflexivity.
  - apply Hdec. simpl. lia.
Defined.

(** ** Create and Update *)

Section Upsert.

Context `{T : http.Transport}.
Context {MHR : json.Marshaler hostAPIRequest.t}
        {MCR : json.Marshaler checkAPIRequest.t}
        {UH : json.Unmarshaler hostAPIResponse.t}
        {UC : json.Unmarshaler checkAPIResponse.t}.



End Upsert.

(** ** Refreshing the state *)

Section Refresh.

Context `{T : http.Transport}.
Context {UH : json.Unmarshaler hostAPIResponse.t}
        {UC : json.Unmarshaler checkAPIResponse.t}.

(** C5, as the code has it.  After a successful fetch, with [apiResp] the
    decoded response: every attribute of a host (id, address, name,
    description, topic, enabled) is the response's value; of a check, id,
    type, config, interval_seconds and enabled are the response's values,
    and host_address, which the response does not carry, is the one the
    state had. *)
Theorem C5_read_overwrites_from_response :
  forall (c : TinyMonClient) (w : http.World),
    (forall (state : hostResourceModel.t)
            (resp : resource.Response hostResourceModel.t)
            (apiResp : hostAPIResponse.t) (w' : http.World),
        diag.HasError (resource.Diagnostics resp) = false ->
        DoJSON (B := json.untyped_nil) c "GET"
          ("/api/push/hosts?address="
           ++ url.QueryEscape (ValueString (hostResourceModel.Address state)))
          None (Some hostAPIResponse.zero) w
        = ((None, Some apiResp), w') ->
        hostResource_Read c state resp w
        = ({| resource.Diagnostics := resource.Diagnostics resp;
              resource.State :=
                {| hostResourceModel.ID :=
                     types.Int64Value (hostAPIResponse.ID apiResp);
                   hostResourceModel.Address :=
                     types.StringValue (hostAPIResponse.Address apiResp);
                   hostResourceModel.Name :=
                     types.StringValue (hostAPIResponse.Name apiResp);
                   hostResourceModel.Description :=
                     types.StringValue (hostAPIResponse.Description apiResp);
                   hostResourceModel.Topic :=
                     types.StringValue (hostAPIResponse.Topic apiResp);
                   hostResourceModel.Enabled :=
                     types.BoolValue
                       (negb (hostAPIResponse.Enabled apiResp =? 0)) |} |},
            w'))
    /\ (forall (state : checkResourceModel.t)
               (resp : resource.Response checkResourceModel.t)
               (apiResp : checkAPIResponse.t) (w' : http.World),
          diag.HasError (resource.Diagnostics resp) = false ->
          DoJSON (B := json.untyped_nil) c "GET"
            ("/api/push/checks?host_address="
             ++ url.QueryEscape
                  (ValueString (checkResourceModel.HostAddress state))
             ++ "&type="
             ++ url.QueryEscape (ValueString (checkResourceModel.Type_ state))
             ++ "&config="
             ++ url.QueryEscape (ValueString (checkResourceModel.Config state)))
            None (Some checkAPIResponse.zero) w
          = ((None, Some apiResp), w') ->
          checkResource_Read c state resp w
          = ({| resource.Diagnostics := resource.Diagnostics resp;
                resource.State :=
                  {| checkResourceModel.ID :=
                       types.Int64Value (checkAPIResponse.ID apiResp);
                     checkResourceModel.HostAddress :=
                       checkResourceModel.HostAddress state;
                     checkResourceModel.Type_ :=
                       types.StringValue (checkAPIResponse.Type_ apiResp);
                     checkResourceModel.Config :=
                       types.StringValue (checkAPIResponse.Config apiResp);
                     checkResourceModel.IntervalSeconds :=
                       types.Int64Value
                         (checkAPIResponse.IntervalSeconds apiResp);
                     checkResourceModel.Enabled :=
                       types.BoolValue
                         (negb (checkAPIResponse.Enabled apiResp =? 0)) |} |},
              w')).
Proof.
  intros c w. split; intros state resp apiResp w' Hok Hcall.
  - unfold hostResource_Read. now rewrite Hok, Hcall.
  - unfold checkResource_Read. now rewrite Hok, Hcall.
Qed.

End Refresh.

(** Two check states that differ in host_address only are refreshed
    from the same successful response: the host_address of each is still
    its own, so it did not come from the response. *)
Lemma C5_check_host_address_not_overwritten :
  let reply := Ok {| http.StatusCode := 200; http.ReadAll := Ok "ping" |} in
  let w := scripted.world [reply] in
  let s1 := imported checkResourceModel.null "10.0.0.1" "ping" "{}" in
  let s2 := imported checkResourceModel.null "10.0.0.2" "ping" "{}" in
  let read s :=
    checkResource_Read (T := scripted.transport)
      (UC := scripted.unmarshal_check) scripted.client s (scripted.fresh s) w in
  diag.HasError (resource.Diagnostics (fst (read s1))) = false
  /\ diag.HasError (resource.Diagnostics (fst (read s2))) = false
  /\ map snd (http.exchanges (snd (read s1))) = [reply]
  /\ map snd (http.exchanges (snd (read s2))) = [reply]
  /\ checkResourceModel.HostAddress (resource.State (fst (read s1)))
     = types.StringValue "10.0.0.1"
  /\ checkResourceModel.HostAddress (resource.State (fst (read s2)))
     = types.StringValue "10.0.0.2"
  /\ resource.State (fst (read s1)) <> resource.State (fst (read s2))
  /\ mapCheckResponseToState checkAPIResponse.zero s1
     <> mapCheckResponseToState checkAPIResponse.zero s2.
Proof.
  cbv zeta. repeat apply conj; try (vm_compute; reflexivity).
  - vm_compute. discriminate.
  - vm_compute. discriminate.
Qed.

(** A host and a check refreshed by the scripted service. *)
Lemma C5_read_overwrites_from_response_witness :
  let w := scripted.world
             [Ok {| http.StatusCode := 200; http.ReadAll := Ok "10.0.0.9" |}] in
  let host := mapHostResponseToState hostAPIResponse.zero
                hostResourceModel.null in
  hostResourceModel.Address
    (resource.State
       (fst (hostResource_Read (T := scripted.transport)
               (UH := scripted.unmarshal_host)
               scripted.client host (scripted.fresh host) w)))
  = types.StringValue "10.0.0.9"
  /\ checkResourceModel.HostAddress
       (resource.State
          (fst (checkResource_Read (T := scripted.transport)
                  (UC := scripted.unmarshal_check) scripted.client
                  (imported checkResourceModel.null "10.0.0.1" "ping" "{}")
                  (scripted.fresh
                     (imported checkResourceModel.null "10.0.0.1" "ping" "{}"))
                  w)))
     = types.StringValue "10.0.0.1".
Proof.
  intros w host.
  destruct (@C5_read_overwrites_from_response scripted.transport
              scripted.unmarshal_host scripted.unmarshal_check
              scripted.client w) as [Hh Hc].
  split.
  - erewrite Hh; cycle 1.
    + reflexivity.
    + vm_compute. reflexivity.
    + reflexivity.
  - erewrite Hc; cycle 1.
    + reflexivity.
    + vm_compute. reflexivity.
    + reflexivity.
Defined.

(** ** Provider configuration *)

Lemma resolve_spec (explicit : types.String) (env : string -> option string)
    (key : string) :
  (if negb (String_IsNull explicit) && negb (String_IsUnknown explicit)
   then ValueString explicit else Getenv env key)
  = resolve explicit env key.
Proof. now destruct explicit. Qed.

(** C6.  The base URL and the API key each resolve to the configured
    value when it is set and to the environment variable otherwise.
    Configuration reports an error exactly when one of the two resolved
    values is empty, and then hands out no client; otherwise it hands out
    the client made of the two resolved values. *)
Theorem C6_configuration_resolution :
  forall (env : string -> option string) (config : tinymonProviderModel.t)
         (resp : provider.ConfigureResponse),
    diag.HasError (provider.Diagnostics resp) = false ->
    let url := resolve (tinymonProviderModel.URL config) env "TINYMON_URL" in
    let apiKey :=
      resolve (tinymonProviderModel.APIKey config) env "TINYMON_API_KEY" in
    let resp' := Configure env config resp in
    (diag.HasError (provider.Diagnostics resp') = true
     <-> url = "" \/ apiKey = "")
    /\ (url = "" \/ apiKey = "" ->
        provider.ResourceData resp' = provider.ResourceData resp
        /\ provider.DataSourceData resp' = provider.DataSourceData resp)
    /\ (url <> "" /\ apiKey <> "" ->
        provider.Diagnostics resp' = provider.Diagnostics resp
        /\ provider.ResourceData resp'
           = Some {| URL := url; APIKey := apiKey |}
        /\ provider.DataSourceData resp'
           = Some {| URL := url; APIKey := apiKey |}).
Proof.
  intros env config resp Hok url apiKey resp'.
  subst resp'. unfold Configure. rewrite Hok, !resolve_spec.
  fold url apiKey.
  destruct (String.eqb_spec url "") as [Hu|Hu];
    destruct (String.eqb_spec apiKey "") as [Hk|Hk];
    try rewrite HasError_AddError; try rewrite Hok;
    cbn [provider.Diagnostics provider.ResourceData provider.DataSourceData];
    try rewrite HasError_AddError; try rewrite Hok;
    (split; [split; [auto|try reflexivity]|split]);
    try (intros [? ?]; contradiction); try tauto; try discriminate.
Qed.

(** The URL from the configuration and the key from the environment; and
    a configuration whose explicit URL is empty, which the environment
    does not repair. *)
Lemma C6_configuration_resolution_witness :
  let env key := if String.eqb key "TINYMON_API_KEY" then Some "secret"
                 else if String.eqb key "TINYMON_URL" then Some "http://env"
                 else None in
  let fresh := {| provider.Diagnostics := [];
                  provider.DataSourceData := None;
                  provider.ResourceData := None |} in
  provider.ResourceData
    (Configure env
       {| tinymonProviderModel.URL := types.StringValue "https://mon.example.com";
          tinymonProviderModel.APIKey := types.StringNull |} fresh)
  = Some {| URL := "https://mon.example.com"; APIKey := "secret" |}
  /\ provider.ResourceData
       (Configure env
          {| tinymonProviderModel.URL := types.StringValue "";
             tinymonProviderModel.APIKey := types.StringUnknown |} fresh)
     = None.
Proof.
  intros env fresh. split.
  - destruct (C6_configuration_resolution env
                {| tinymonProviderModel.URL :=
                     types.StringValue "https://mon.example.com";
                   tinymonProviderModel.APIKey := types.StringNull |}
                fresh eq_refl) as (_ & _ & H).
    apply H. split; discriminate.
  - destruct (C6_configuration_resolution env
                {| tinymonProviderModel.URL := types.StringValue "";
                   tinymonProviderModel.APIKey := types.StringUnknown |}
                fresh eq_refl) as (_ & H & _).
    apply H. left. reflexivity.
Defined.

(** ** Identity and mutable attributes *)

(** C7.  In the host schema exactly [address], and in the check schema
    exactly [host_address], [type] and [config], carry the
    replace-on-change modifier; [name], [description], [topic], [enabled]
    and [interval_seconds] (and the computed [id]) do not. *)
Theorem C7_schema_partition :
  identity_attributes hostResource_Schema = ["address"]
  /\ in_place_attributes hostResource_Schema
     = ["id"; "name"; "description"; "topic"; "enabled"]
  /\ identity_attributes checkResource_Schema
     = ["host_address"; "type"; "config"]
  /\ in_place_attributes checkResource_Schema
     = ["id"; "interval_seconds"; "enabled"]
  /\ NoDup (schema.names hostResource_Schema)
  /\ NoDup (schema.names checkResource_Schema)
  /\ forall name attr,
       schema.lookup name (schema.Attributes hostResource_Schema) = Some attr
       \/ schema.lookup name (schema.Attributes checkResource_Schema) = Some attr ->
       schema.forcesReplacement attr
       = existsb (String.eqb name) ["address"; "host_address"; "type"; "config"].
Proof.
  repeat apply conj; try reflexivity.
  - unfold schema.names. simpl.
    repeat (constructor; [simpl; intuition discriminate|]). constructor.
  - unfold schema.names. simpl.
    repeat (constructor; [simpl; intuition discriminate|]). constructor.
  - intros name attr [H|H];
      unfold hostResource_Schema, checkResource_Schema in H;
      cbn [schema.Attributes schema.lookup] in H;
      repeat match type of H with
             | (if String.eqb ?k name then _ else _) = _ =>
                 destruct (String.eqb_spec k name) as [<-|_];
                 [injection H as <-; reflexivity|]
             end; discriminate.
Qed.

(** The attribute [config] of a check, looked up by name. *)
Lemma C7_schema_partition_witness :
  option_map schema.forcesReplacement
    (schema.lookup "config" (schema.Attributes checkResource_Schema))
  = Some true.
Proof.
  destruct C7_schema_partition as (_ & _ & _ & _ & _ & _ & Hall).
  destruct (schema.lookup "config" (schema.Attributes checkResource_Schema))
    as [attr|] eqn:E.
  - simpl. f_equal. apply (Hall "config" attr). right. exact E.
  - vm_compute in E. discriminate.
Defined.

(** ** Host import *)

(** C8.  Importing a host writes the identifier, as it is, to [address];
    the other attributes and the diagnostics are what they were. *)
Theorem C8_host_import_verbatim :
  forall (ID : string) (resp : resource.Response hostResourceModel.t),
    hostResource_ImportState ID resp
    = {| resource.Diagnostics := resource.Diagnostics resp;
         resource.State :=
           {| hostResourceModel.ID :=
                hostResourceModel.ID (resource.State resp);
              hostResourceModel.Address := types.StringValue ID;
              hostResourceModel.Name :=
                hostResourceModel.Name (resource.State resp);
              hostResourceModel.Description :=
                hostResourceModel.Description (resource.State resp);
              hostResourceModel.Topic :=
                hostResourceModel.Topic (resource.State resp);
              hostResourceModel.Enabled :=
                hostResourceModel.Enabled (resource.State resp) |} |}.
Proof.
  intros ID resp. unfold hostResource_ImportState, hostState_SetAttribute.
  reflexivity.
Qed.

(** ** The request URL *)

Section TrimRight_slash.
Import strings.






End TrimRight_slash.


(** ** Responses that are not decoded *)

Lemma outcome_2xx_skip {R : Type} (UR : json.Unmarshaler R)
    (method path : string) (dest : option R) (status : Z) (respBody : string) :
  is2xx status ->
  respBody = "" \/ dest = None ->
  outcome method path dest
    (Ok {| http.StatusCode := status; http.ReadAll := Ok respBody |})
  = (None, dest).
Proof.
  intros [Hlo Hhi] Hskip. unfold outcome. cbn [http.ReadAll http.StatusCode].
  destruct (Z.ltb_spec status 200); [lia|].
  destruct (Z.geb_spec status 300); [lia|]. cbn [orb].
  destruct Hskip as [-> | ->]; [now destruct dest | reflexivity].
Qed.

Lemma outcome_ErrUnmarshal {R : Type} (UR : json.Unmarshaler R)
    (method path : string) (dest after : option R) (r : result http.Response)
    (e : error) :
  outcome method path dest r = (Some (ErrUnmarshal e), after) ->
  exists dst reply respBody,
    dest = Some dst /\ r = Ok reply /\ is2xx (http.StatusCode reply)
    /\ http.ReadAll reply = Ok respBody /\ respBody <> "".
Proof.
  unfold outcome. destruct r as [reply|e0]; [|discriminate].
  destruct (http.ReadAll reply) as [respBody|e0] eqn:Eb; [|discriminate].
  destruct (Z.ltb_spec (http.StatusCode reply) 200); [discriminate|].
  destruct (Z.geb_spec (http.StatusCode reply) 300); [discriminate|].
  cbn [orb]. destruct dest as [dst|]; [|discriminate].
  destruct respBody as [|a s]; [discriminate|]. intros _.
  exists dst, reply, (String a s). unfold is2xx.
  repeat split; try assumption; try lia. discriminate.
Qed.

(** C10.  When the service answers with a 2xx status and the body is
    empty or no destination was supplied, [DoJSON] succeeds, leaves the
    destination as it is, and does so whatever the JSON decoder: the decoder
    is not consulted.  An unmarshalling error presupposes a destination
    and a non-empty body of a 2xx response.  Without a destination the
    decoder has no influence on the call at all, whatever the status, and
    there is still no destination afterwards.  Both delete callbacks pass
    no destination: answered with a 2xx status they return the response
    object they were handed, whatever the body. *)
Theorem C10_no_decoding_without_body_or_destination :
  forall `{T : http.Transport} (B R : Type) (MB : json.Marshaler B)
         (UR : json.Unmarshaler R)
         (MHD : json.Marshaler hostDeleteRequest.t)
         (MCD : json.Marshaler checkDeleteRequest.t)
         (c : TinyMonClient) (w w' : http.World),
    (forall method path (body : option B) (dest : option R) err after req
            status respBody,
        DoJSON c method path body dest w = ((err, after), w') ->
        answered w w' req
          {| http.StatusCode := status; http.ReadAll := Ok respBody |} ->
        is2xx status ->
        respBody = "" \/ dest = None ->
        err = None /\ after = dest
        /\ forall UR' : json.Unmarshaler R,
             DoJSON (UR := UR') c method path body dest w = ((None, dest), w'))
    /\ (forall method path (body : option B) (dest : option R) e after,
          DoJSON c method path body dest w
          = ((Some (ErrUnmarshal e), after), w') ->
          exists dst req reply respBody,
            dest = Some dst /\ answered w w' req reply
            /\ is2xx (http.StatusCode reply)
            /\ http.ReadAll reply = Ok respBody /\ respBody <> "")
    /\ (forall method path (body : option B) (UR' : json.Unmarshaler R),
          DoJSON (UR := UR) c method path body None w
          = DoJSON (UR := UR') c method path body None w
          /\ snd (fst (DoJSON c method path body (@None R) w)) = None)
    /\ (forall state resp resp' req status respBody,
          hostResource_Delete c state resp w = (resp', w') ->
          answered w w' req
            {| http.StatusCode := status; http.ReadAll := Ok respBody |} ->
          is2xx status -> resp' = resp)
    /\ (forall state resp resp' req status respBody,
          checkResource_Delete c state resp w = (resp', w') ->
          answered w w' req
            {| http.StatusCode := status; http.ReadAll := Ok respBody |} ->
          is2xx status -> resp' = resp).
Proof.
  intros T B R MB UR MHD MCD c w w'.
  assert (skip : forall (B0 R0 : Type) (MB0 : json.Marshaler B0)
                   (UR0 : json.Unmarshaler R0) method path (body : option B0)
                   (dest : option R0) err after req status respBody,
    DoJSON c method path body dest w = ((err, after), w') ->
    answered w w' req
      {| http.StatusCode := status; http.ReadAll := Ok respBody |} ->
    is2xx status -> respBody = "" \/ dest = None ->
    err = None /\ after = dest
    /\ forall UR' : json.Unmarshaler R0,
         DoJSON (UR := UR') c method path body dest w = ((None, dest), w')).
  { intros B0 R0 MB0 UR0 method path body dest err after req status respBody
      H Ans Hs Hskip.
    destruct (DoJSON_answered _ _ _ _ _ _ _ _ _ _ _ H Ans)
      as (Hout & _ & _ & _ & Hsend).
    rewrite outcome_2xx_skip in Hout by assumption.
    injection Hout as -> ->. repeat split.
    intros UR'. rewrite DoJSON_split, Hsend.
    now rewrite outcome_2xx_skip by assumption. }
  assert (delete : forall (B0 M : Type) (MB0 : json.Marshaler B0)
                     (body : B0) (resp resp' : resource.Response M)
                     path summary req status respBody,
    runs resp resp' w w'
      (DoJSON (R := json.untyped_nil) c "DELETE" path (Some body) None w)
      summary (fun _ => resource.State resp) ->
    answered w w' req
      {| http.StatusCode := status; http.ReadAll := Ok respBody |} ->
    is2xx status -> resp' = resp).
  { intros B0 M MB0 body resp resp' path summary req status respBody
      [(_ & _ & ->)|(_ & err & after & Hcall & Hres)] Ans Hs.
    - now apply not_answered_same in Ans.
    - destruct (skip _ _ _ _ _ _ _ _ _ _ _ _ _ Hcall Ans Hs (or_intror eq_refl))
        as (-> & _). subst resp'. now destruct resp. }
  repeat apply conj.
  - apply skip.
  - intros method path body dest e after H.
    destruct (DoJSON_inv _ _ _ _ _ _ _ _ _ H)
      as [(_ & _ & m & [Hm|Hm])|(req & r & Hx & _ & _ & _ & Hout & _)];
      try discriminate.
    symmetry in Hout. apply outcome_ErrUnmarshal in Hout.
    destruct Hout as (dst & reply & respBody & -> & -> & Hs & Hb & Hne).
    now exists dst, req, reply, respBody.
  - intros method path body UR'. rewrite !DoJSON_split.
    destruct (send c method path body w) as [e|[[reply|e] w0]];
      [now split| |now split].
    unfold outcome. destruct (http.ReadAll reply); [|now split].
    now destruct (_ || _).
  - intros state resp resp' req status respBody H Ans Hs.
    exact (delete _ _ _ _ _ _ _ _ _ _ _
             (hostResource_Delete_inv _ _ _ _ _ _ H) Ans Hs).
  - intros state resp resp' req status respBody H Ans Hs.
    exact (delete _ _ _ _ _ _ _ _ _ _ _
             (checkResource_Delete_inv _ _ _ _ _ _ H) Ans Hs).
Qed.

(** A host delete answered 204 with no body, and a check read answered
    200 with no body. *)
Lemma C10_no_decoding_without_body_or_destination_witness :
  let w := scripted.world
             [Ok {| http.StatusCode := 204; http.ReadAll := Ok "" |}] in
  let host := mapHostResponseToState hostAPIResponse.zero
                hostResourceModel.null in
  fst (hostResource_Delete (T := scripted.transport)
         (MHD := scripted.marshal_host_delete)
         scripted.client host (scripted.fresh host) w)
  = scripted.fresh host
  /\ fst (DoJSON (T := scripted.transport) (B := json.untyped_nil)
            (UR := scripted.unmarshal_check) scripted.client "GET"
            "/api/push/checks" None (Some checkAPIResponse.zero) w)
     = (None, Some checkAPIResponse.zero).
Proof.
  intros w host.
  assert (Hs : is2xx 204) by (unfold is2xx; lia).
  split.
  - destruct (@C10_no_decoding_without_body_or_destination
                scripted.transport json.untyped_nil json.untyped_nil _ _
                scripted.marshal_host_delete scripted.marshal_check_delete
                scripted.client w
                (snd (hostResource_Delete (T := scripted.transport)
                        (MHD := scripted.marshal_host_delete)
                        scripted.client host (scripted.fresh host) w)))
      as (_ & _ & _ & Hdel & _).
    eapply (Hdel host (scripted.fresh host)).
    + apply surjective_pairing.
    + unfold answered. cbv. reflexivity.
    + exact Hs.
  - destruct (@C10_no_decoding_without_body_or_destination
                scripted.transport json.untyped_nil checkAPIResponse.t _
                scripted.unmarshal_check
                scripted.marshal_host_delete scripted.marshal_check_delete
                scripted.client w
                (snd (DoJSON (T := scripted.transport) (B := json.untyped_nil)
                        (UR := scripted.unmarshal_check) scripted.client "GET"
                        "/api/push/checks" None (Some checkAPIResponse.zero) w)))
      as (Hskip & _).
    edestruct (Hskip "GET" "/api/push/checks" None (Some checkAPIResponse.zero))
      as (He & Ha & _).
    + rewrite <- surjective_pairing. apply surjective_pairing.
    + unfold answered. cbv. reflexivity.
    + exact Hs.
    + left. reflexivity.
    + rewrite (surjective_pairing (fst _)). now rewrite He, Ha.
Defined.

(** * Further properties of the code *)

(** ** What [DoJSON] sends and when it succeeds *)


Section DoJSON_more.

Context `{T : http.Transport}.
Context {B R : Type} {MB : json.Marshaler B} {UR : json.Unmarshaler R}.

Variables (c : TinyMonClient) (method path : string).
Variables (body : option B) (dest : option R) (w : http.World).



End DoJSON_more.

Section DoJSON_results.

Context `{T : http.Transport}.
Context {B R : Type} {MB : json.Marshaler B} {UR : json.Unmarshaler R}.






End DoJSON_results.

(** ** The callbacks: what they send and what they write *)

Section Callbacks_more.

Context `{T : http.Transport}.
Context {MHR : json.Marshaler hostAPIRequest.t}
        {MHD : json.Marshaler hostDeleteRequest.t}
        {MCR : json.Marshaler checkAPIRequest.t}
        {MCD : json.Marshaler checkDeleteRequest.t}
        {UH : json.Unmarshaler hostAPIResponse.t}
        {UC : json.Unmarshaler checkAPIResponse.t}.


Lemma runs_all_or_nothing {M A : Type} (resp resp' : resource.Response M)
    (w w' : http.World) (call : (option DoJSONError * option A) * http.World)
    (summary : string) (ok : option A -> M) :
  runs resp resp' w w' call summary ok -> all_or_nothing resp resp'.
Proof.
  intros [(He & -> & _)|(Hok & [e|] & after & _ & Hres)].
  - now left.
  - destruct Hres as (Hst & _ & Herr). now left.
  - subst resp'. right. now split.
Qed.


(** X4.  Each of the eight callbacks is all-or-nothing: either it ends
    with an error among the diagnostics and the state it was handed, or it
    ends without any error and with the diagnostics it was handed.  No
    failure of the call, whatever its kind, writes the state. *)
Theorem callbacks_all_or_nothing :
  forall (c : TinyMonClient) (w : http.World),
    (forall x resp, all_or_nothing resp (fst (hostResource_Create c x resp w)))
    /\ (forall x resp, all_or_nothing resp (fst (hostResource_Read c x resp w)))
    /\ (forall x resp, all_or_nothing resp (fst (hostResource_Update c x resp w)))
    /\ (forall x resp, all_or_nothing resp (fst (hostResource_Delete c x resp w)))
    /\ (forall x resp, all_or_nothing resp (fst (checkResource_Create c x resp w)))
    /\ (forall x resp, all_or_nothing resp (fst (checkResource_Read c x resp w)))
    /\ (forall x resp, all_or_nothing resp (fst (checkResource_Update c x resp w)))
    /\ (forall x resp, all_or_nothing resp (fst (checkResource_Delete c x resp w))).
Proof.
  intros c w. repeat apply conj; intros x resp.
  - exact (runs_all_or_nothing _ _ _ _ _ _ _
             (hostResource_Create_inv _ _ _ _ _ _ (surjective_pairing _))).
  - exact (runs_all_or_nothing _ _ _ _ _ _ _
             (hostResource_Read_inv _ _ _ _ _ _ (surjective_pairing _))).
  - exact (runs_all_or_nothing _ _ _ _ _ _ _
             (hostResource_Update_inv _ _ _ _ _ _ (surjective_pairing _))).
  - exact (runs_all_or_nothing _ _ _ _ _ _ _
             (hostResource_Delete_inv _ _ _ _ _ _ (surjective_pairing _))).
  - exact (runs_all_or_nothing _ _ _ _ _ _ _
             (checkResource_Create_inv _ _ _ _ _ _ (surjective_pairing _))).
  - exact (runs_all_or_nothing _ _ _ _ _ _ _
             (checkResource_Read_inv _ _ _ _ _ _ (surjective_pairing _))).
  - exact (runs_all_or_nothing _ _ _ _ _ _ _
             (checkResource_Update_inv _ _ _ _ _ _ (surjective_pairing _))).
  - exact (runs_all_or_nothing _ _ _ _ _ _ _
             (checkResource_Delete_inv _ _ _ _ _ _ (surjective_pairing _))).
Qed.




(** X6.  Delete never writes the state: whatever the service answers,
    and also when nothing can be sent, both delete callbacks return the
    state they were handed. *)
Theorem delete_never_writes_state :
  forall (c : TinyMonClient) (w : http.World),
    (forall state resp,
        resource.State (fst (hostResource_Delete c state resp w))
        = resource.State resp)
    /\ (forall state resp,
          resource.State (fst (checkResource_Delete c state resp w))
          = resource.State resp).
Proof.
  intros c w.
  assert (keep : forall (M A : Type) (resp resp' : resource.Response M) w'
                   (call : (option DoJSONError * option A) * http.World)
                   summary,
    runs resp resp' w w' call summary (fun _ => resource.State resp) ->
    resource.State resp' = resource.State resp).
  { intros M A resp resp' w' call summary
      [(_ & -> & _)|(_ & [e|] & after & _ & Hres)].
    - reflexivity.
    - now destruct Hres.
    - now subst resp'. }
  split; intros state resp.
  - exact (keep _ _ _ _ _ _ _
             (hostResource_Delete_inv _ _ _ _ _ _ (surjective_pairing _))).
  - exact (keep _ _ _ _ _ _ _
             (checkResource_Delete_inv _ _ _ _ _ _ (surjective_pairing _))).
Qed.

Lemma runs_empty_body {B A M : Type} {MB : json.Marshaler B}
    {UA : json.Unmarshaler A} (c : TinyMonClient) (method path : string)
    (b : option B) (z : A) (resp resp' : resource.Response M)
    (w w' : http.World) (summary : string) (ok : option A -> M)
    (req : http.Request) (status : Z) :
  runs resp resp' w w' (DoJSON c method path b (Some z) w) summary ok ->
  answered w w' req {| http.StatusCode := status; http.ReadAll := Ok "" |} ->
  is2xx status ->
  resp' = {| resource.Diagnostics := resource.Diagnostics resp;
             resource.State := ok (Some z) |}.
Proof.
  intros [(_ & _ & ->)|(_ & err & after & Hcall & Hres)] Ans Hs.
  - now apply not_answered_same in Ans.
  - destruct (DoJSON_answered _ _ _ _ _ _ _ _ _ _ _ Hcall Ans) as [Hout _].
    rewrite outcome_2xx_skip in Hout by (assumption || now left).
    injection Hout as -> ->. exact Hres.
Qed.

(** X7.  An upsert or a read that is answered 2xx with an empty body
    succeeds, and stores the zero values of the response type: for a host
    the id 0, empty address, name, description and topic, and enabled
    false, whatever the plan or the state said; for a check the same with
    interval 0, keeping only host_address. *)
Theorem empty_2xx_body_stores_zero_values :
  forall (c : TinyMonClient) (w w' : http.World) (req : http.Request)
         (status : Z),
    is2xx status ->
    answered w w' req {| http.StatusCode := status; http.ReadAll := Ok "" |} ->
    let host_zero :=
      {| hostResourceModel.ID := types.Int64Value 0;
         hostResourceModel.Address := types.StringValue "";
         hostResourceModel.Name := types.StringValue "";
         hostResourceModel.Description := types.StringValue "";
         hostResourceModel.Topic := types.StringValue "";
         hostResourceModel.Enabled := types.BoolValue false |} in
    let check_zero host_address :=
      {| checkResourceModel.ID := types.Int64Value 0;
         checkResourceModel.HostAddress := host_address;
         checkResourceModel.Type_ := types.StringValue "";
         checkResourceModel.Config := types.StringValue "";
         checkResourceModel.IntervalSeconds := types.Int64Value 0;
         checkResourceModel.Enabled := types.BoolValue false |} in
    (forall x resp resp',
        hostResource_Create c x resp w = (resp', w')
        \/ hostResource_Read c x resp w = (resp', w')
        \/ hostResource_Update c x resp w = (resp', w') ->
        resp' = {| resource.Diagnostics := resource.Diagnostics resp;
                   resource.State := host_zero |})
    /\ (forall x resp resp',
          checkResource_Create c x resp w = (resp', w')
          \/ checkResource_Read c x resp w = (resp', w')
          \/ checkResource_Update c x resp w = (resp', w') ->
          resp' = {| resource.Diagnostics := resource.Diagnostics resp;
                     resource.State :=
                       check_zero (checkResourceModel.HostAddress x) |}).
Proof.
  intros c w w' req status Hs Ans host_zero check_zero.
  split; intros x resp resp' [H|[H|H]].
  - exact (runs_empty_body _ _ _ _ _ _ _ _ _ _ _ _ _
             (hostResource_Create_inv _ _ _ _ _ _ H) Ans Hs).
  - exact (runs_empty_body _ _ _ _ _ _ _ _ _ _ _ _ _
             (hostResource_Read_inv _ _ _ _ _ _ H) Ans Hs).
  - exact (runs_empty_body _ _ _ _ _ _ _ _ _ _ _ _ _
             (hostResource_Update_inv _ _ _ _ _ _ H) Ans Hs).
  - exact (runs_empty_body _ _ _ _ _ _ _ _ _ _ _ _ _
             (checkResource_Create_inv _ _ _ _ _ _ H) Ans Hs).
  - exact (runs_empty_body _ _ _ _ _ _ _ _ _ _ _ _ _
             (checkResource_Read_inv _ _ _ _ _ _ H) Ans Hs).
  - exact (runs_empty_body _ _ _ _ _ _ _ _ _ _ _ _ _
             (checkResource_Update_inv _ _ _ _ _ _ H) Ans Hs).
Qed.



End Callbacks_more.

(** ** The query of the Read requests *)

Section Query.
Import strings strings_facts.

Lemma QueryEscape_cons (c : ascii) (rest : string) :
  url.QueryEscape (String c rest)
  = url.QueryEscape (String c "") ++ url.QueryEscape rest.
Proof.
  cbn [url.QueryEscape].
  destruct (Ascii.eqb c " "); [reflexivity|].
  now destruct (url.shouldEscape c).
Qed.

Lemma all_bytes_append (p : ascii -> bool) (a b : string) :
  all_bytes p (a ++ b) = all_bytes p a && all_bytes p b.
Proof.
  induction a as [|x a IH]; [reflexivity|].
  cbn [append all_bytes]. now rewrite IH, andb_assoc.
Qed.

Lemma QueryEscape_byte_safe (c : ascii) :
  all_bytes query_safe (url.QueryEscape (String c "")) = true.
Proof. destruct c as [[] [] [] [] [] [] [] []]; reflexivity. Qed.

Lemma QueryEscape_safe (s : string) :
  all_bytes query_safe (url.QueryEscape s) = true.
Proof.
  induction s as [|c s IH]; [reflexivity|].
  now rewrite QueryEscape_cons, all_bytes_append, QueryEscape_byte_safe, IH.
Qed.

Lemma safe_free_of (x : ascii) (s : string) :
  query_safe x = false -> all_bytes query_safe s = true -> free_of x s = true.
Proof.
  intros Hx. induction s as [|c s IH]; [reflexivity|].
  cbn [all_bytes free_of]. intros H. apply andb_prop in H as [Hc Hs].
  rewrite (IH Hs), andb_true_r.
  destruct (Ascii.eqb_spec c x) as [->|_]; [congruence|reflexivity].
Qed.

Lemma QueryEscape_unreserved (s : string) :
  all_bytes unreserved s = true -> url.QueryEscape s = s.
Proof.
  induction s as [|c s IH]; [reflexivity|].
  cbn [all_bytes url.QueryEscape]. intros H. apply andb_prop in H as [Hc Hs].
  rewrite (IH Hs). unfold unreserved in Hc. apply negb_true_iff in Hc.
  rewrite Hc. destruct (Ascii.eqb_spec c " ") as [->|_]; [discriminate|].
  reflexivity.
Qed.

Lemma unescape_escape (h l : ascii) (rest : string) :
  unescape (String "%" (String h (String l rest)))
  = match unhex h, unhex l, unescape rest with
    | Some a, Some b, Some r => Some (String (ascii_of_nat (a * 16 + b)) r)
    | _, _, _ => None
    end.
Proof. reflexivity. Qed.

Lemma unescape_plain (c : ascii) (rest : string) :
  query_safe c = true -> unreserved c = true ->
  unescape (String c rest)
  = match unescape rest with
    | Some r => Some (String c r)
    | None => None
    end.
Proof.
  destruct c as [[] [] [] [] [] [] [] []]; intros _ H;
    try reflexivity; discriminate H.
Qed.

Lemma unhex_upperhex (k : nat) :
  (k < 16)%nat -> unhex (url.upperhex k) = Some k.
Proof.
  intros H. do 16 (destruct k as [|k]; [reflexivity|]). lia.
Qed.

Lemma unescape_byte (c : ascii) (r u : string) :
  unescape r = Some u ->
  unescape (url.QueryEscape (String c "") ++ r) = Some (String c u).
Proof.
  intros H. cbn [url.QueryEscape].
  destruct (Ascii.eqb_spec c " ") as [->|Hsp].
  - cbn [append unescape]. now rewrite H.
  - destruct (url.shouldEscape c) eqn:E.
    + cbn [append]. rewrite unescape_escape, H.
      pose proof (nat_ascii_bounded c) as Hb.
      rewrite !unhex_upperhex
        by (try apply Nat.mod_upper_bound; try apply Nat.Div0.div_lt_upper_bound;
            lia).
      rewrite (Nat.mul_comm _ 16), <- Nat.div_mod_eq, ascii_nat_embedding.
      reflexivity.
    + cbn [append]. rewrite unescape_plain, H; [reflexivity| |];
        unfold query_safe, unreserved; now rewrite E.
Qed.

Lemma unescape_QueryEscape (s : string) :
  unescape (url.QueryEscape s) = Some s.
Proof.
  induction s as [|c s IH]; [reflexivity|].
  rewrite QueryEscape_cons. now apply unescape_byte.
Qed.

Lemma QueryEscape_injective (a b : string) :
  url.QueryEscape a = url.QueryEscape b -> a = b.
Proof.
  intros H. pose proof (unescape_QueryEscape a) as Ha.
  rewrite H, unescape_QueryEscape in Ha. now injection Ha.
Qed.

Lemma append_inv_head (p x y : string) : p ++ x = p ++ y -> x = y.
Proof.
  induction p as [|c p IH]; [trivial|]. cbn [append]. intros [= H]. auto.
Qed.

(** Two escaped components followed by [&] and more text are equal only
    piece by piece. *)
Lemma escaped_then_amp (a b x y : string) :
  url.QueryEscape a ++ String "&" x = url.QueryEscape b ++ String "&" y ->
  a = b /\ x = y.
Proof.
  intros H. apply (f_equal (fun s => Cut s "&")) in H.
  rewrite !Cut_first in H
    by (apply safe_free_of; [reflexivity | apply QueryEscape_safe]).
  injection H as Hq ->. split; [now apply QueryEscape_injective|reflexivity].
Qed.

Lemma SplitN_all_three (a b c : string) :
  free_of "&" a = true -> free_of "&" b = true -> free_of "&" c = true ->
  SplitN (a ++ String "&" (b ++ String "&" c)) "&" (-1) = [a; b; c].
Proof.
  intros Ha Hb Hc. unfold SplitN.
  change (-1 =? 0) with false. change (-1 <? 0) with true. cbv iota zeta.
  rewrite Z.gtb_ltb, Z.ltb_irrefl.
  replace (Z.to_nat _)
    with (String.length (a ++ String "&" (b ++ String "&" c))) by lia.
  rewrite length_append. cbn [String.length].
  rewrite length_append. cbn [String.length].
  replace (String.length a + S (String.length b + S (String.length c)))%nat
    with (S (S (String.length a + String.length b + String.length c))) by lia.
  cbn [splitLoop]. rewrite Cut_first by assumption.
  rewrite Cut_first by assumption. now rewrite splitLoop_free.
Qed.

Lemma parameter_free_of_amp (name value : string) :
  free_of "&" name = true ->
  free_of "&" (name ++ url.QueryEscape value) = true.
Proof.
  intros Hn. rewrite free_of_append, Hn.
  apply safe_free_of; [reflexivity | apply QueryEscape_safe].
Qed.

(** X9.  The path of a Read request reads back as the key: a server that
    splits it at [?], [&] and [=] and unescapes the values finds the
    endpoint and exactly the parameters address, or host_address, type and
    config, with the values of the state, byte for byte.  Values made of
    letters, digits, [-], [_], [.] and [~] only, such as IP addresses and
    host names, are sent as they are. *)
Theorem read_path_round_trip :
  forall (host type config : string),
    parse_request_path (host_read_path host)
    = ("/api/push/hosts", [("address", Some host)])
    /\ parse_request_path (check_read_path host type config)
       = ("/api/push/checks",
          [("host_address", Some host); ("type", Some type);
           ("config", Some config)])
    /\ (all_bytes unreserved host = true ->
        host_read_path host = "/api/push/hosts?address=" ++ host).
Proof.
  intros host type config. repeat apply conj.
  - unfold parse_request_path, host_read_path.
    change ("/api/push/hosts?address=" ++ url.QueryEscape host)
      with ("/api/push/hosts" ++ String "?" ("address=" ++ url.QueryEscape host)).
    rewrite Cut_first by reflexivity.
    assert (Hq : SplitN ("address=" ++ url.QueryEscape host) "&" (-1)
                 = ["address=" ++ url.QueryEscape host]).
    { unfold SplitN. change (-1 =? 0) with false. cbv iota.
      apply splitLoop_free. now apply parameter_free_of_amp. }
    rewrite Hq. cbn [map]. unfold parse_parameter.
    change ("address=" ++ url.QueryEscape host)
      with ("address" ++ String "=" (url.QueryEscape host)).
    rewrite Cut_first by reflexivity. now rewrite unescape_QueryEscape.
  - unfold parse_request_path, check_read_path.
    match goal with
    | |- context [Cut ?p "?"] =>
        replace p
          with ("/api/push/checks"
                ++ String "?"
                     (("host_address=" ++ url.QueryEscape host)
                      ++ String "&"
                           (("type=" ++ url.QueryEscape type)
                            ++ String "&"
                                 ("config=" ++ url.QueryEscape config))))
          by (rewrite !append_assoc; reflexivity)
    end.
    rewrite Cut_first by reflexivity.
    rewrite SplitN_all_three by now apply parameter_free_of_amp.
    cbn [map]. unfold parse_parameter.
    change ("host_address=" ++ url.QueryEscape host)
      with ("host_address" ++ String "=" (url.QueryEscape host)).
    change ("type=" ++ url.QueryEscape type)
      with ("type" ++ String "=" (url.QueryEscape type)).
    change ("config=" ++ url.QueryEscape config)
      with ("config" ++ String "=" (url.QueryEscape config)).
    rewrite !Cut_first by reflexivity. now rewrite !unescape_QueryEscape.
  - intros H. unfold host_read_path. now rewrite QueryEscape_unreserved.
Qed.

(** An IP address goes into the query as it is; a JSON config is escaped. *)
Lemma read_path_round_trip_witness :
  host_read_path "192.168.1.10" = "/api/push/hosts?address=192.168.1.10"
  /\ check_read_path "192.168.1.10" "disk" "{a:/}"
     = "/api/push/checks?host_address=192.168.1.10&type=disk&config=%7Ba%3A%2F%7D".
Proof.
  split.
  - destruct (read_path_round_trip "192.168.1.10" "" "") as (_ & _ & H).
    apply H. reflexivity.
  - reflexivity.
Defined.

(** X10.  Different keys are read through different requests: the path
    of a host Read determines the address, and the path of a check Read
    determines host_address, type and config, also when these contain
    [&], [=], [/], spaces or other reserved bytes. *)
Theorem read_path_determines_key :
  forall (host host' type type' config config' : string),
    (host_read_path host = host_read_path host' -> host = host')
    /\ (check_read_path host type config = check_read_path host' type' config' ->
        host = host' /\ type = type' /\ config = config').
Proof.
  intros host host' type type' config config'. split.
  - unfold host_read_path. intros H. apply append_inv_head in H.
    now apply QueryEscape_injective.
  - unfold check_read_path. intros H. apply append_inv_head in H.
    change ("&type=" ++ url.QueryEscape type ++ "&config=" ++ url.QueryEscape config)
      with (String "&" ("type=" ++ url.QueryEscape type
                        ++ String "&" ("config=" ++ url.QueryEscape config))) in H.
    change ("&type=" ++ url.QueryEscape type' ++ "&config="
            ++ url.QueryEscape config')
      with (String "&" ("type=" ++ url.QueryEscape type'
                        ++ String "&" ("config=" ++ url.QueryEscape config'))) in H.
    apply escaped_then_amp in H as [-> H]. apply append_inv_head in H.
    apply escaped_then_amp in H as [-> H]. apply append_inv_head in H.
    apply QueryEscape_injective in H. now subst.
Qed.

(** Two configs that differ in a reserved byte only. *)
Lemma read_path_determines_key_witness :
  check_read_path "h" "http" "a&b" <> check_read_path "h" "http" "a=b".
Proof.
  intros H.
  destruct (read_path_determines_key "h" "h" "http" "http" "a&b" "a=b")
    as [_ Hinj].
  destruct (Hinj H) as (_ & _ & Hc). discriminate Hc.
Defined.

End Query.

(** ** Provider and resource configuration *)

Lemma Diagnostic_eqb_eq (x y : diag.Diagnostic) :
  diag.Diagnostic_eqb x y = true -> x = y.
Proof.
  destruct x as [sx ux dx], y as [sy uy dy]. unfold diag.Diagnostic_eqb.
  cbn [diag.severity diag.summary diag.detail]. intros H.
  apply andb_prop in H as [H Hd]. apply andb_prop in H as [Hs Hu].
  apply String.eqb_eq in Hd, Hu. subst.
  destruct sx, sy; try discriminate; reflexivity.
Qed.

(** [AddError] adds the error and nothing else, and drops nothing. *)
Lemma In_AddError (ds : diag.Diagnostics) (sum det : string)
    (d : diag.Diagnostic) :
  In d (diag.AddError ds sum det)
  <-> In d ds
      \/ d = {| diag.severity := diag.SeverityError; diag.summary := sum;
                diag.detail := det |}.
Proof.
  unfold diag.AddError. cbn [diag.Append].
  destruct (diag.Contains ds _) eqn:E.
  - split; [now left|]. intros [H| ->]; [exact H|].
    unfold diag.Contains in E. apply existsb_exists in E.
    destruct E as (y & Hin & Hy). apply Diagnostic_eqb_eq in Hy. now subst.
  - rewrite in_app_iff. cbn [In]. intuition.
Qed.

(** X11.  Provider configuration checks both settings before it gives up:
    the diagnostics it returns are those it was handed, plus the
    missing-URL error exactly when the URL resolves to the empty string,
    plus the missing-key error exactly when the key does.  Handed an error,
    it returns at once, without checking anything. *)
Theorem Configure_reports_every_missing_value :
  forall (env : string -> option string) (config : tinymonProviderModel.t)
         (resp : provider.ConfigureResponse),
    let url := resolve (tinymonProviderModel.URL config) env "TINYMON_URL" in
    let apiKey :=
      resolve (tinymonProviderModel.APIKey config) env "TINYMON_API_KEY" in
    let missing_url :=
      {| diag.severity := diag.SeverityError;
         diag.summary := "Missing TinyMon URL";
         diag.detail :=
           "Set url in the provider configuration or via the TINYMON_URL environment variable." |} in
    let missing_key :=
      {| diag.severity := diag.SeverityError;
         diag.summary := "Missing TinyMon API Key";
         diag.detail :=
           "Set api_key in the provider configuration or via the TINYMON_API_KEY environment variable." |} in
    (diag.HasError (provider.Diagnostics resp) = true ->
     Configure env config resp = resp)
    /\ (diag.HasError (provider.Diagnostics resp) = false ->
        forall d,
          In d (provider.Diagnostics (Configure env config resp))
          <-> In d (provider.Diagnostics resp)
              \/ (url = "" /\ d = missing_url)
              \/ (apiKey = "" /\ d = missing_key)).
Proof.
  intros env config resp url apiKey missing_url missing_key. split.
  - intros H. unfold Configure. now rewrite H.
  - intros Hok d. unfold Configure. rewrite Hok, !resolve_spec.
    fold url apiKey.
    destruct (String.eqb_spec url "") as [Hu|Hu];
      destruct (String.eqb_spec apiKey "") as [Hk|Hk];
      rewrite ?HasError_AddError, ?Hok;
      cbn [provider.Diagnostics]; rewrite ?In_AddError;
      fold missing_url missing_key; intuition congruence.
Qed.

(** Nothing is configured and the environment is empty: both errors. *)
Lemma Configure_reports_every_missing_value_witness :
  List.length
    (provider.Diagnostics
       (Configure (fun _ => None)
          {| tinymonProviderModel.URL := types.StringNull;
             tinymonProviderModel.APIKey := types.StringNull |}
          {| provider.Diagnostics := []; provider.DataSourceData := None;
             provider.ResourceData := None |}))
  = 2%nat
  /\ exists d,
       diag.summary d = "Missing TinyMon API Key"
       /\ In d (provider.Diagnostics
                  (Configure (fun _ => None)
                     {| tinymonProviderModel.URL := types.StringNull;
                        tinymonProviderModel.APIKey := types.StringNull |}
                     {| provider.Diagnostics := [];
                        provider.DataSourceData := None;
                        provider.ResourceData := None |})).
Proof.
  split; [reflexivity|].
  eexists. split; [|
    apply (proj2 (Configure_reports_every_missing_value (fun _ => None)
                    {| tinymonProviderModel.URL := types.StringNull;
                       tinymonProviderModel.APIKey := types.StringNull |}
                    {| provider.Diagnostics := [];
                       provider.DataSourceData := None;
                       provider.ResourceData := None |}) eq_refl);
    right; right; split; reflexivity ].
  reflexivity.
Defined.

(** X12.  A setting given in the provider block shadows the environment
    completely: with both settings given, configuration does not depend on
    the environment; and a setting given as the empty string is missing,
    whatever the environment variable holds. *)
Theorem explicit_settings_shadow_environment :
  forall (env env' : string -> option string) (u k : string)
         (resp : provider.ConfigureResponse),
    let config := {| tinymonProviderModel.URL := types.StringValue u;
                     tinymonProviderModel.APIKey := types.StringValue k |} in
    Configure env config resp = Configure env' config resp
    /\ (diag.HasError (provider.Diagnostics resp) = false ->
        u = "" \/ k = "" ->
        diag.HasError (provider.Diagnostics (Configure env config resp)) = true
        /\ provider.ResourceData (Configure env config resp)
           = provider.ResourceData resp)
    /\ (diag.HasError (provider.Diagnostics resp) = false ->
        u <> "" -> k <> "" ->
        provider.ResourceData (Configure env config resp)
        = Some {| URL := u; APIKey := k |}).
Proof.
  intros env env' u k resp config. subst config.
  unfold Configure. cbn [tinymonProviderModel.URL tinymonProviderModel.APIKey
    String_IsNull String_IsUnknown ValueString negb andb].
  split; [reflexivity|].
  destruct (diag.HasError (provider.Diagnostics resp)) eqn:Hok;
    (split; [intros [=]|intros [=]]).
  - intros Hone.
    destruct (String.eqb_spec u "") as [Hu|Hu];
      destruct (String.eqb_spec k "") as [Hk|Hk];
      rewrite ?HasError_AddError; cbn [provider.Diagnostics
        provider.ResourceData]; rewrite ?HasError_AddError; auto.
    destruct Hone; contradiction.
  - intros Hu Hk.
    destruct (String.eqb_spec u "") as [|_]; [contradiction|].
    destruct (String.eqb_spec k "") as [|_]; [contradiction|].
    now rewrite Hok.
Qed.

(** The URL is given as the empty string; the environment has one. *)
Lemma explicit_settings_shadow_environment_witness :
  diag.HasError
    (provider.Diagnostics
       (Configure (fun _ => Some "http://env")
          {| tinymonProviderModel.URL := types.StringValue "";
             tinymonProviderModel.APIKey := types.StringValue "secret" |}
          {| provider.Diagnostics := []; provider.DataSourceData := None;
             provider.ResourceData := None |}))
  = true.
Proof.
  destruct (explicit_settings_shadow_environment (fun _ => Some "http://env")
              (fun _ => None) "" "secret"
              {| provider.Diagnostics := []; provider.DataSourceData := None;
                 provider.ResourceData := None |}) as (_ & H & _).
  apply H; [reflexivity | now left].
Defined.

(** X13.  The client reaches the resources: after a provider
    configuration that ended without an error, configuring a host or a
    check resource with the provider's resource data installs the client
    made of the resolved URL and key and reports nothing.  Without provider
    data a resource is left as it is, silently; with provider data of
    another type it is left as it is and an error is reported. *)
Theorem resources_receive_the_configured_client :
  forall (env : string -> option string) (config : tinymonProviderModel.t)
         (presp : provider.ConfigureResponse),
    let presp' := Configure env config presp in
    let client :=
      {| URL := resolve (tinymonProviderModel.URL config) env "TINYMON_URL";
         APIKey := resolve (tinymonProviderModel.APIKey config) env
                     "TINYMON_API_KEY" |} in
    (diag.HasError (provider.Diagnostics presp') = false ->
     forall hr cr ds,
       hostResource_Configure hr
         (ProviderData_of (provider.ResourceData presp')) ds
       = ({| hostResource_client := Some client |}, ds)
       /\ checkResource_Configure cr
            (ProviderData_of (provider.ResourceData presp')) ds
          = ({| checkResource_client := Some client |}, ds)
       /\ URL client <> "" /\ APIKey client <> "")
    /\ (forall hr cr ds,
          hostResource_Configure hr ProviderData_nil ds = (hr, ds)
          /\ checkResource_Configure cr ProviderData_nil ds = (cr, ds))
    /\ (forall hr cr ds typeName,
          fst (hostResource_Configure hr (ProviderData_other typeName) ds) = hr
          /\ fst (checkResource_Configure cr (ProviderData_other typeName) ds)
             = cr
          /\ diag.HasError
               (snd (hostResource_Configure hr (ProviderData_other typeName) ds))
             = true
          /\ diag.HasError
               (snd (checkResource_Configure cr (ProviderData_other typeName) ds))
             = true).
Proof.
  intros env config presp presp' client. repeat apply conj.
  - subst presp'. unfold Configure.
    destruct (diag.HasError (provider.Diagnostics presp)) eqn:Hok;
      [congruence|].
    rewrite !resolve_spec. fold (URL client) (APIKey client).
    change (resolve (tinymonProviderModel.URL config) env "TINYMON_URL")
      with (URL client).
    change (resolve (tinymonProviderModel.APIKey config) env "TINYMON_API_KEY")
      with (APIKey client).
    destruct (String.eqb_spec (URL client) "") as [Hu|Hu];
      destruct (String.eqb_spec (APIKey client) "") as [Hk|Hk];
      rewrite ?HasError_AddError, ?Hok; cbn [provider.Diagnostics];
      rewrite ?HasError_AddError; try discriminate.
    intros _ hr cr ds. cbn [provider.ResourceData ProviderData_of
      hostResource_Configure checkResource_Configure].
    now destruct client.
  - intros hr cr ds. now split.
  - intros hr cr ds typeName. cbn [hostResource_Configure
      checkResource_Configure fst snd].
    now rewrite !HasError_AddError.
Qed.

(** The URL from the provider block, the key from the environment. *)
Lemma resources_receive_the_configured_client_witness :
  fst (hostResource_Configure {| hostResource_client := None |}
         (ProviderData_of
            (provider.ResourceData
               (Configure
                  (fun key => if String.eqb key "TINYMON_API_KEY"
                              then Some "secret" else None)
                  {| tinymonProviderModel.URL :=
                       types.StringValue "https://mon.example.com";
                     tinymonProviderModel.APIKey := types.StringNull |}
                  {| provider.Diagnostics := [];
                     provider.DataSourceData := None;
                     provider.ResourceData := None |}))) [])
  = {| hostResource_client :=
         Some {| URL := "https://mon.example.com"; APIKey := "secret" |} |}.
Proof.
  destruct (resources_receive_the_configured_client
              (fun key => if String.eqb key "TINYMON_API_KEY"
                          then Some "secret" else None)
              {| tinymonProviderModel.URL :=
                   types.StringValue "https://mon.example.com";
                 tinymonProviderModel.APIKey := types.StringNull |}
              {| provider.Diagnostics := []; provider.DataSourceData := None;
                 provider.ResourceData := None |}) as (H & _).
  destruct (H eq_refl {| hostResource_client := None |}
              {| checkResource_client := None |} []) as (Hh & _).
  rewrite Hh. reflexivity.
Defined.

(** ** Defaults and the wire value of [enabled] *)

(** X14.  The defaults agree across the code.  A check imported without a
    config gets the config the schema declares as the default, so it has
    the key of a check declared without one; and a plan whose [enabled] is
    null is sent with a wire value that reads back as the schema's default
    for [enabled]. *)
Theorem defaults_agree :
  forall (host type : string) (resp : resource.Response checkResourceModel.t)
         (hp : hostResourceModel.t) (cp : checkResourceModel.t),
    (strings.free_of "/" host = true -> strings.free_of "/" type = true ->
     option_map schema.Default
       (schema.lookup "config" (schema.Attributes checkResource_Schema))
     = Some (Some (schema.StaticString
                     (ValueString
                        (checkResourceModel.Config
                           (resource.State
                              (checkResource_ImportState (host ++ "/" ++ type)
                                 resp)))))))
    /\ (hostResourceModel.Enabled hp = types.BoolNull ->
        option_map schema.Default
          (schema.lookup "enabled" (schema.Attributes hostResource_Schema))
        = Some (Some (schema.StaticBool
                        (negb (hostAPIRequest.Enabled
                                 (hostResource_Create_body hp) =? 0)))))
    /\ (checkResourceModel.Enabled cp = types.BoolNull ->
        option_map schema.Default
          (schema.lookup "enabled" (schema.Attributes checkResource_Schema))
        = Some (Some (schema.StaticBool
                        (negb (checkAPIRequest.Enabled
                                 (checkResource_Create_body cp) =? 0))))).
Proof.
  intros host type resp hp cp. repeat apply conj.
  - intros Hh Ht.
    rewrite (import_of_parts resp _ _ (SplitN_3_two _ _ Hh Ht))
      by (simpl; lia).
    reflexivity.
  - intros H. unfold hostResource_Create_body. now rewrite H.
  - intros H. unfold checkResource_Create_body. now rewrite H.
Qed.

(** The import of the documentation, without a config. *)
Lemma defaults_agree_witness :
  option_map schema.Default
    (schema.lookup "config" (schema.Attributes checkResource_Schema))
  = Some (Some (schema.StaticString
                  (ValueString
                     (checkResourceModel.Config
                        (resource.State
                           (checkResource_ImportState "192.168.1.10/ping"
                              (scripted.fresh checkResourceModel.null))))))).
Proof.
  destruct (defaults_agree "192.168.1.10" "ping"
              (scripted.fresh checkResourceModel.null)
              hostResourceModel.null checkResourceModel.null) as (H & _).
  apply H; reflexivity.
Defined.

(** X15.  The wire value of [enabled] is always 0 or 1, in the bodies of
    all four upserts, and it is 0 exactly when the plan says [false] or is
    unknown; a null [enabled] is never sent as disabled. *)
Theorem enabled_wire_is_0_or_1 :
  forall (hp : hostResourceModel.t) (cp : checkResourceModel.t),
    let off (v : types.Bool) :=
      v = types.BoolValue false \/ v = types.BoolUnknown in
    (forall body,
        body = hostResource_Create_body hp
        \/ body = hostResource_Update_body hp ->
        (hostAPIRequest.Enabled body = 0 \/ hostAPIRequest.Enabled body = 1)
        /\ (hostAPIRequest.Enabled body = 0
            <-> off (hostResourceModel.Enabled hp)))
    /\ (forall body,
          body = checkResource_Create_body cp
          \/ body = checkResource_Update_body cp ->
          (checkAPIRequest.Enabled body = 0 \/ checkAPIRequest.Enabled body = 1)
          /\ (checkAPIRequest.Enabled body = 0
              <-> off (checkResourceModel.Enabled cp))).
Proof.
  intros hp cp off. subst off. split; intros body [-> | ->];
    unfold hostResource_Create_body, hostResource_Update_body,
      checkResource_Create_body, checkResource_Update_body;
    cbn [hostAPIRequest.Enabled checkAPIRequest.Enabled];
    [ destruct (hostResourceModel.Enabled hp) as [| |[]]
    | destruct (hostResourceModel.Enabled hp) as [| |[]]
    | destruct (checkResourceModel.Enabled cp) as [| |[]]
    | destruct (checkResourceModel.Enabled cp) as [| |[]] ];
    cbn; intuition (discriminate || auto).
Qed.

(** A plan whose [enabled] is not yet known. *)
Lemma enabled_wire_is_0_or_1_witness :
  hostAPIRequest.Enabled
    (hostResource_Create_body
       {| hostResourceModel.ID := types.Int64Unknown;
          hostResourceModel.Address := types.StringValue "192.168.1.10";
          hostResourceModel.Name := types.StringNull;
          hostResourceModel.Description := types.StringValue "";
          hostResourceModel.Topic := types.StringValue "";
          hostResourceModel.Enabled := types.BoolUnknown |})
  = 0.
Proof.
  destruct (enabled_wire_is_0_or_1
              {| hostResourceModel.ID := types.Int64Unknown;
                 hostResourceModel.Address := types.StringValue "192.168.1.10";
                 hostResourceModel.Name := types.StringNull;
                 hostResourceModel.Description := types.StringValue "";
                 hostResourceModel.Topic := types.StringValue "";
                 hostResourceModel.Enabled := types.BoolUnknown |}
              checkResourceModel.null) as [H _].
  destruct (H _ (or_introl eq_refl)) as [_ Hiff].
  apply Hiff. now right.
Defined.

(** ** Import followed by Read *)

Section ImportThenRead.

Context `{T : http.Transport}.
Context {UH : json.Unmarshaler hostAPIResponse.t}
        {UC : json.Unmarshaler checkAPIResponse.t}.


End ImportThenRead.


(** ** The further properties on the scripted service *)




(** A host create answered 204 without a body: the address is lost. *)
Lemma empty_2xx_body_stores_zero_values_witness :
  let w := scripted.world
             [Ok {| http.StatusCode := 204; http.ReadAll := Ok "" |}] in
  let plan := {| hostResourceModel.ID := types.Int64Unknown;
                 hostResourceModel.Address := types.StringValue "192.168.1.10";
                 hostResourceModel.Name := types.StringValue "Webserver";
                 hostResourceModel.Description := types.StringValue "";
                 hostResourceModel.Topic := types.StringValue "";
                 hostResourceModel.Enabled := types.BoolValue true |} in
  hostResourceModel.Address
    (resource.State
       (fst (hostResource_Create (T := scripted.transport)
               (MHR := scripted.marshal_host) (UH := scripted.unmarshal_host)
               scripted.client plan (scripted.fresh hostResourceModel.null) w)))
  = types.StringValue "".
Proof.
  intros w plan.
  assert (Hs : is2xx 204) by (unfold is2xx; lia).
  pose (r := hostResource_Create (T := scripted.transport)
               (MHR := scripted.marshal_host) (UH := scripted.unmarshal_host)
               scripted.client plan (scripted.fresh hostResourceModel.null) w).
  assert (Ans : answered w (snd r)
                  (request_of scripted.client "POST" "/api/push/hosts"
                     (Some "address=192.168.1.10;name=Webserver;description=;topic=;enabled=1"))
                  {| http.StatusCode := 204; http.ReadAll := Ok "" |})
    by reflexivity.
  destruct (@empty_2xx_body_stores_zero_values scripted.transport
              scripted.marshal_host scripted.marshal_check
              scripted.unmarshal_host scripted.unmarshal_check
              scripted.client w (snd r) _ 204 Hs Ans) as [Hh _].
  fold r.
  rewrite (Hh plan (scripted.fresh hostResourceModel.null) (fst r)
             (or_introl (surjective_pairing r))).
  reflexivity.
Defined.

